(** * Telegram trading bot: the parsing and level-calculation core

    A shallow embedding of [src/parser.py] (class [MessageParser]) and
    [src/calculator.py] (class [LevelCalculator]), and the properties of
    the specification that concern them.

    Modelling conventions.
    - A Python [str] is a list of Unicode code points ([pystr]).
    - A Python [float] has two embeddings.  Module [Binary64] has the
      calculator on IEEE 754 binary64 numbers (the primitive [float]),
      operation for operation; equalities between levels, the
      risk/reward ratio and the formatting of prices are stated there.
      Module [Calculator] has the same code on exact rationals ([Q]);
      it serves the properties that rounding leaves as they are: which
      exceptions are raised, the fallback of the unit, and non-strict
      order between levels.  The price the parser reads is the exact
      value of its literal.
    - A call either returns or raises: [outcome].
    - A Python [dict] is an association list in insertion order, because
      the code iterates dictionaries and sorts their keys stably.
    - The configuration is the value [json.load] returned, typed at the
      shape the code indexes it with: directions and assets with their
      alias lists, rule rows with four numbers and an optional unit
      string.  The file [config/rules.json] itself is not among the
      sources; every property holds for any table, and the tables
      below serve the examples only. *)

From Stdlib Require Import Floats.
From Stdlib Require Import String Ascii List Bool NArith ZArith QArith Qround.
From Stdlib Require Import Lia Lqa Permutation Sorted Qabs.
Import ListNotations.

#[local] Set Warnings "-inexact-float".

(** ** Strings *)

Definition char := N.
Definition pystr := list char.

(** An ASCII literal as a Python string. *)
Definition py (s : string) : pystr :=
  map N_of_ascii (list_ascii_of_string s).

Fixpoint str_eqb (a b : pystr) : bool :=
  match a, b with
  | [], [] => true
  | x :: a', y :: b' => N.eqb x y && str_eqb a' b'
  | _, _ => false
  end.

(** ** Outcomes of a call *)

Inductive exn :=
| KeyError (k : pystr)
| AttributeError
| ZeroDivisionError
| ValueError.

Inductive outcome (A : Type) :=
| Returned (a : A)
| Raised (e : exn).
Arguments Returned {A} a.
Arguments Raised {A} e.

Definition bind {A B} (c : outcome A) (k : A -> outcome B) : outcome B :=
  match c with
  | Returned a => k a
  | Raised e => Raised e
  end.

Notation "x <- c ;; k" := (bind c (fun x => k))
  (at level 61, c at next level, right associativity).

(** ** Dictionaries in insertion order *)

Definition dict (V : Type) := list (pystr * V).

(** [d.get(k)] *)
Fixpoint dict_get {V} (k : pystr) (d : dict V) : option V :=
  match d with
  | [] => None
  | (k', v) :: d' => if str_eqb k k' then Some v else dict_get k d'
  end.

(** [d[k]] *)
Definition dict_getitem {V} (k : pystr) (d : dict V) : outcome V :=
  match dict_get k d with
  | Some v => Returned v
  | None => Raised (KeyError k)
  end.

(** [d.get(k, default)] *)
Definition dict_get_default {V} (k : pystr) (default : V) (d : dict V) : V :=
  match dict_get k d with
  | Some v => v
  | None => default
  end.

(** [d[k] = v]: an existing key keeps its place, a new key goes last. *)
Fixpoint dict_set {V} (k : pystr) (v : V) (d : dict V) : dict V :=
  match d with
  | [] => [(k, v)]
  | (k', v') :: d' =>
      if str_eqb k k' then (k', v) :: d' else (k', v') :: dict_set k v d'
  end.

(** [d.keys()] *)
Definition dict_keys {V} (d : dict V) : list pystr := map fst d.

(** ** Numbers *)

Open Scope Q_scope.

(** [a / b] on floats. *)
Definition py_div (a b : Q) : outcome Q :=
  if Qeq_bool b 0 then Raised ZeroDivisionError else Returned (a / b).

(** The integer nearest to [y], ties going to the even one. *)
Definition round_half_even (y : Q) : Z :=
  let f := Qfloor y in
  match Qcompare (y - inject_Z f) (1 # 2) with
  | Lt => f
  | Gt => (f + 1)%Z
  | Eq => if Z.even f then f else (f + 1)%Z
  end.

(** [round(x, 2)] in exact arithmetic. *)
Definition py_round2 (x : Q) : Q :=
  inject_Z (round_half_even (x * 100)) / 100.

(** The decimal digits of a number, as characters. *)
Fixpoint chars_of_uint (u : Decimal.uint) : pystr :=
  match u with
  | Decimal.Nil => []
  | Decimal.D0 u => 48%N :: chars_of_uint u
  | Decimal.D1 u => 49%N :: chars_of_uint u
  | Decimal.D2 u => 50%N :: chars_of_uint u
  | Decimal.D3 u => 51%N :: chars_of_uint u
  | Decimal.D4 u => 52%N :: chars_of_uint u
  | Decimal.D5 u => 53%N :: chars_of_uint u
  | Decimal.D6 u => 54%N :: chars_of_uint u
  | Decimal.D7 u => 55%N :: chars_of_uint u
  | Decimal.D8 u => 56%N :: chars_of_uint u
  | Decimal.D9 u => 57%N :: chars_of_uint u
  end.

Definition decimal_digits (n : N) : pystr := chars_of_uint (N.to_uint n).

(** The last [width] decimal digits of [n], zeros included. *)
Fixpoint fixed_digits (width : nat) (n : N) : pystr :=
  match width with
  | O => []
  | S w => fixed_digits w (n / 10)%N ++ [(48 + n mod 10)%N]
  end.

(** [f"{value:.{decimals}f}"] for a number of exact value [value]:
    rounded to [decimals] places, ties to even, with its sign. *)
Definition format_fixed (decimals : nat) (value : Q) : pystr :=
  let unit := (10 ^ N.of_nat decimals)%N in
  let scaled :=
    Z.to_N (round_half_even (Qabs value * inject_Z (Z.of_N unit))) in
  (if Qlt_le_dec value 0 then [45%N] else [])
  ++ decimal_digits (scaled / unit)%N
  ++ match decimals with
     | O => []
     | S _ => 46%N :: fixed_digits decimals (scaled mod unit)%N
     end.

(** ** The configuration ([config/rules.json] once loaded) *)

(** A rule row: [{"tp1": .., "tp2": .., "tp3": .., "sl": .., "unit": ..}],
    the unit being optional. *)
Record LevelRule := mkRule {
  rule_tp1 : Q;
  rule_tp2 : Q;
  rule_tp3 : Q;
  rule_sl : Q;
  rule_unit : option pystr
}.

(** An asset's object holds its alias list under the key ["aliases"]
    (optional) next to one rule row per timeframe, in one dictionary. *)
Record AssetEntry := mkAsset {
  entry_aliases : option (list pystr);
  entry_rules : dict LevelRule
}.

Inductive AssetField :=
| FAliases (l : list pystr)
| FRule (r : LevelRule).

Definition k_aliases : pystr := py "aliases".

(** [entry.get(k)] on an asset's object. *)
Definition asset_get (k : pystr) (e : AssetEntry) : option AssetField :=
  if str_eqb k k_aliases
  then option_map FAliases (entry_aliases e)
  else option_map FRule (dict_get k (entry_rules e)).

(** [entry[k]] *)
Definition asset_getitem (k : pystr) (e : AssetEntry) : outcome AssetField :=
  match asset_get k e with
  | Some f => Returned f
  | None => Raised (KeyError k)
  end.

(** [k in entry] *)
Definition asset_contains (k : pystr) (e : AssetEntry) : bool :=
  match asset_get k e with
  | Some _ => true
  | None => false
  end.

Record Config := mkConfig {
  cfg_directions : dict (list pystr);
  cfg_assets : dict AssetEntry;
  cfg_tf_aliases : dict pystr
}.

(** * calculator.py *)

Module Calculator.

Record TradingLevels := mkLevels {
  direction : pystr;
  asset : pystr;
  timeframe : pystr;
  entry : Q;
  tp1 : Q;
  tp2 : Q;
  tp3 : Q;
  sl : Q;
  tp1_distance : Q;
  tp2_distance : Q;
  tp3_distance : Q;
  sl_distance : Q;
  unit : pystr;
  rr_ratio : Q
}.

Definition PIP_VALUES : dict Q :=
  [ (py "EURUSD", 0.0001); (py "GBPUSD", 0.0001); (py "USDJPY", 0.01);
    (py "AUDUSD", 0.0001); (py "USDCAD", 0.0001); (py "USDCHF", 0.0001) ].

Definition POINT_VALUES : dict Q :=
  [ (py "US30", 1); (py "NAS100", 1); (py "SPX500", 0.1) ].

(** [_load_config]: the loaded JSON, as it is. *)
Definition _load_config (source : Config) : outcome Config :=
  Returned source.

(** [LevelCalculator.__init__] *)
Definition init (source : Config) : outcome Config :=
  _load_config source.

Definition _calc_percentage (direction : pystr) (entry : Q)
    (tp1_pct tp2_pct tp3_pct sl_pct : Q) : Q * Q * Q * Q :=
  if str_eqb direction (py "LONG") then
    (entry * (1 + tp1_pct / 100),
     entry * (1 + tp2_pct / 100),
     entry * (1 + tp3_pct / 100),
     entry * (1 - sl_pct / 100))
  else
    (entry * (1 - tp1_pct / 100),
     entry * (1 - tp2_pct / 100),
     entry * (1 - tp3_pct / 100),
     entry * (1 + sl_pct / 100)).

Definition _calc_pips (direction : pystr) (entry pip_value : Q)
    (tp1_pips tp2_pips tp3_pips sl_pips : Q) : Q * Q * Q * Q :=
  if str_eqb direction (py "LONG") then
    (entry + tp1_pips * pip_value,
     entry + tp2_pips * pip_value,
     entry + tp3_pips * pip_value,
     entry - sl_pips * pip_value)
  else
    (entry - tp1_pips * pip_value,
     entry - tp2_pips * pip_value,
     entry - tp3_pips * pip_value,
     entry + sl_pips * pip_value).

Definition _calc_points (direction : pystr) (entry point_value : Q)
    (tp1_pts tp2_pts tp3_pts sl_pts : Q) : Q * Q * Q * Q :=
  if str_eqb direction (py "LONG") then
    (entry + tp1_pts * point_value,
     entry + tp2_pts * point_value,
     entry + tp3_pts * point_value,
     entry - sl_pts * point_value)
  else
    (entry - tp1_pts * point_value,
     entry - tp2_pts * point_value,
     entry - tp3_pts * point_value,
     entry + sl_pts * point_value).

(** [calculate].  Divisions by the literals [100] and [3] cannot raise
    and are written with [/]; the division by [sl_dist] goes through
    [py_div]. *)
Definition calculate (config : Config)
    (direction asset timeframe : pystr) (entry_price : Q)
    : outcome TradingLevels :=
  asset_obj <- dict_getitem asset (cfg_assets config) ;;
  field <- asset_getitem timeframe asset_obj ;;
  match field with
  | FAliases _ => Raised AttributeError
  | FRule rules =>
      let unit :=
        match rule_unit rules with Some u => u | None => py "%" end in
      let tp1_dist := rule_tp1 rules in
      let tp2_dist := rule_tp2 rules in
      let tp3_dist := rule_tp3 rules in
      let sl_dist := rule_sl rules in
      let '(tp1, tp2, tp3, sl) :=
        if str_eqb unit (py "pips") then
          let pip_value := dict_get_default asset 0.0001 PIP_VALUES in
          _calc_pips direction entry_price pip_value
            tp1_dist tp2_dist tp3_dist sl_dist
        else if str_eqb unit (py "points") then
          let point_value := dict_get_default asset 1 POINT_VALUES in
          _calc_points direction entry_price point_value
            tp1_dist tp2_dist tp3_dist sl_dist
        else
          _calc_percentage direction entry_price
            tp1_dist tp2_dist tp3_dist sl_dist in
      let avg_tp := (tp1_dist + tp2_dist + tp3_dist) / 3 in
      rr_ratio <-
        (if Qlt_le_dec 0 sl_dist
         then (q <- py_div avg_tp sl_dist ;; Returned (py_round2 q))
         else Returned 0) ;;
      Returned {|
        direction := direction;
        asset := asset;
        timeframe := timeframe;
        entry := entry_price;
        tp1 := tp1;
        tp2 := tp2;
        tp3 := tp3;
        sl := sl;
        tp1_distance := tp1_dist;
        tp2_distance := tp2_dist;
        tp3_distance := tp3_dist;
        sl_distance := sl_dist;
        unit := unit;
        rr_ratio := rr_ratio
      |}
  end.

End Calculator.

Close Scope Q_scope.

(** * calculator.py on binary64 numbers *)

Module Binary64.

(** The exact value of a finite binary64 number of mantissa [m] and
    exponent [e]. *)
Definition sf_value (m : positive) (e : Z) : Q :=
  (inject_Z (Zpos m) * Qpower 2 e)%Q.

(** [a / b] *)
Definition py_truediv (a b : float) : outcome float :=
  if (b =? 0)%float then Raised ZeroDivisionError
  else Returned (a / b)%float.

(** [round(x, 2)]: the decimal with two places nearest to the exact
    value of [x], ties to even, then the binary64 number nearest to
    that decimal; an infinity, a NaN and a zero come back as they are.
    From [2^46] on, binary64 numbers are more than 0.015 apart and [x]
    is its own result; below, the scaled value is an integer under
    [2^53] and one division rounds it correctly. *)
Definition py_round2 (x : float) : float :=
  match Prim2SF x with
  | S754_finite s m e =>
      let magnitude := sf_value m e in
      if Qle_bool (Qpower 2 46) magnitude then x
      else
        let n := round_half_even (magnitude * 100) in
        let r := (of_uint63 (Uint63.of_Z n) / 100)%float in
        if s then (- r)%float else r
  | _ => x
  end.

Record LevelRule := mkRule {
  rule_tp1 : float;
  rule_tp2 : float;
  rule_tp3 : float;
  rule_sl : float;
  rule_unit : option pystr
}.

Record AssetEntry := mkAsset {
  entry_aliases : option (list pystr);
  entry_rules : dict LevelRule
}.

Inductive AssetField :=
| FAliases (l : list pystr)
| FRule (r : LevelRule).

(** [entry.get(k)] on an asset's object. *)
Definition asset_get (k : pystr) (e : AssetEntry) : option AssetField :=
  if str_eqb k k_aliases
  then option_map FAliases (entry_aliases e)
  else option_map FRule (dict_get k (entry_rules e)).

(** [entry[k]] *)
Definition asset_getitem (k : pystr) (e : AssetEntry) : outcome AssetField :=
  match asset_get k e with
  | Some f => Returned f
  | None => Raised (KeyError k)
  end.

Record TradingLevels := mkLevels {
  direction : pystr;
  asset : pystr;
  timeframe : pystr;
  entry : float;
  tp1 : float;
  tp2 : float;
  tp3 : float;
  sl : float;
  tp1_distance : float;
  tp2_distance : float;
  tp3_distance : float;
  sl_distance : float;
  unit : pystr;
  rr_ratio : float
}.

Definition PIP_VALUES : dict float :=
  [ (py "EURUSD", 0.0001); (py "GBPUSD", 0.0001); (py "USDJPY", 0.01);
    (py "AUDUSD", 0.0001); (py "USDCAD", 0.0001);
    (py "USDCHF", 0.0001) ]%float.

Definition POINT_VALUES : dict float :=
  [ (py "US30", 1); (py "NAS100", 1); (py "SPX500", 0.1) ]%float.

Definition _calc_percentage (direction : pystr) (entry : float)
    (tp1_pct tp2_pct tp3_pct sl_pct : float)
    : float * float * float * float :=
  (if str_eqb direction (py "LONG") then
    (entry * (1 + tp1_pct / 100),
     entry * (1 + tp2_pct / 100),
     entry * (1 + tp3_pct / 100),
     entry * (1 - sl_pct / 100))
  else
    (entry * (1 - tp1_pct / 100),
     entry * (1 - tp2_pct / 100),
     entry * (1 - tp3_pct / 100),
     entry * (1 + sl_pct / 100)))%float.

Definition _calc_pips (direction : pystr) (entry pip_value : float)
    (tp1_pips tp2_pips tp3_pips sl_pips : float)
    : float * float * float * float :=
  (if str_eqb direction (py "LONG") then
    (entry + tp1_pips * pip_value,
     entry + tp2_pips * pip_value,
     entry + tp3_pips * pip_value,
     entry - sl_pips * pip_value)
  else
    (entry - tp1_pips * pip_value,
     entry - tp2_pips * pip_value,
     entry - tp3_pips * pip_value,
     entry + sl_pips * pip_value))%float.

Definition _calc_points (direction : pystr) (entry point_value : float)
    (tp1_pts tp2_pts tp3_pts sl_pts : float)
    : float * float * float * float :=
  (if str_eqb direction (py "LONG") then
    (entry + tp1_pts * point_value,
     entry + tp2_pts * point_value,
     entry + tp3_pts * point_value,
     entry - sl_pts * point_value)
  else
    (entry - tp1_pts * point_value,
     entry - tp2_pts * point_value,
     entry - tp3_pts * point_value,
     entry + sl_pts * point_value))%float.

(** [calculate], [assets] being [self.config["assets"]].  Divisions by
    the literals [100] and [3] cannot raise and are written with [/];
    the division by [sl_dist] goes through [py_truediv]. *)
Definition calculate (assets : dict AssetEntry)
    (direction asset timeframe : pystr) (entry_price : float)
    : outcome TradingLevels :=
  asset_obj <- dict_getitem asset assets ;;
  field <- asset_getitem timeframe asset_obj ;;
  match field with
  | FAliases _ => Raised AttributeError
  | FRule rules =>
      let unit :=
        match rule_unit rules with Some u => u | None => py "%" end in
      let tp1_dist := rule_tp1 rules in
      let tp2_dist := rule_tp2 rules in
      let tp3_dist := rule_tp3 rules in
      let sl_dist := rule_sl rules in
      let '(tp1, tp2, tp3, sl) :=
        if str_eqb unit (py "pips") then
          let pip_value := dict_get_default asset 0.0001%float PIP_VALUES in
          _calc_pips direction entry_price pip_value
            tp1_dist tp2_dist tp3_dist sl_dist
        else if str_eqb unit (py "points") then
          let point_value := dict_get_default asset 1%float POINT_VALUES in
          _calc_points direction entry_price point_value
            tp1_dist tp2_dist tp3_dist sl_dist
        else
          _calc_percentage direction entry_price
            tp1_dist tp2_dist tp3_dist sl_dist in
      let avg_tp := ((tp1_dist + tp2_dist + tp3_dist) / 3)%float in
      rr_ratio <-
        (if (0 <? sl_dist)%float
         then (q <- py_truediv avg_tp sl_dist ;; Returned (py_round2 q))
         else Returned 0%float) ;;
      Returned {|
        direction := direction;
        asset := asset;
        timeframe := timeframe;
        entry := entry_price;
        tp1 := tp1;
        tp2 := tp2;
        tp3 := tp3;
        sl := sl;
        tp1_distance := tp1_dist;
        tp2_distance := tp2_dist;
        tp3_distance := tp3_dist;
        sl_distance := sl_dist;
        unit := unit;
        rr_ratio := rr_ratio
      |}
  end.

(** [f"{value:.{decimals}f}"] *)
Definition format_float (decimals : nat) (value : float) : pystr :=
  match Prim2SF value with
  | S754_nan => py "nan"
  | S754_infinity s => if s then py "-inf" else py "inf"
  | S754_zero s => (if s then [45%N] else []) ++ format_fixed decimals 0
  | S754_finite s m e =>
      format_fixed decimals
        (if s then Qopp (sf_value m e) else sf_value m e)
  end.

(** The table [decimals] of [format_price]. *)
Definition PRICE_DECIMALS : dict nat :=
  [ (py "BTCUSD", 2%nat); (py "ETHUSDT", 2%nat); (py "XAUUSD", 2%nat);
    (py "EURUSD", 5%nat); (py "GBPUSD", 5%nat); (py "USDJPY", 3%nat);
    (py "US30", 1%nat); (py "NAS100", 1%nat) ].

Definition format_price (price : float) (asset : pystr) : pystr :=
  let dec := dict_get_default asset 2%nat PRICE_DECIMALS in
  format_float dec price.

End Binary64.

(** * Python's string and regex primitives *)

(** ** Unicode tables

    [str.isspace], [str.upper], the regex classes and [re.IGNORECASE]
    consult Python's Unicode database, which is not part of the
    repository.  What they do on ASCII is written out below; what the
    database says about the other code points is a parameter. *)
Class UnicodeData := {
  uni_space : char -> bool;          (* whitespace *)
  uni_alnum : char -> bool;          (* alphanumeric *)
  uni_decimal : char -> option N;    (* value of a decimal digit *)
  uni_upper : char -> pystr;         (* upper-case mapping *)
  uni_ieq : char -> char -> bool     (* [uni_ieq p c]: [c] matches the ASCII
                                        pattern letter [p] ignoring case *)
}.

(** Tables that know nothing beyond ASCII: enough to run ASCII inputs,
    and right about the two glyphs, which are neither spaces, letters
    nor digits and have no upper case. *)
Definition ascii_tables : UnicodeData := {|
  uni_space := fun _ => false;
  uni_alnum := fun _ => false;
  uni_decimal := fun _ => None;
  uni_upper := fun c => [c];
  uni_ieq := fun _ _ => false
|}.

Definition between (lo hi c : N) : bool := (lo <=? c)%N && (c <=? hi)%N.

Section Primitives.
Context {U : UnicodeData}.

Definition is_ascii (c : char) : bool := (c <? 128)%N.

(** [c.isspace()], also the regex class [\s]. *)
Definition is_space (c : char) : bool :=
  if is_ascii c
  then between 9 13 c || between 28 32 c
  else uni_space c.

(** The decimal value of [c], if it is a decimal digit. *)
Definition decimal_value (c : char) : option N :=
  if is_ascii c
  then (if between 48 57 c then Some (c - 48)%N else None)
  else uni_decimal c.

(** The regex class [\d]. *)
Definition is_digit (c : char) : bool :=
  match decimal_value c with Some _ => true | None => false end.

(** [c.isalnum()]: letters and digits. *)
Definition is_alnum (c : char) : bool :=
  (if is_ascii c
   then between 65 90 c || between 97 122 c
   else uni_alnum c)
  || is_digit c.

(** The regex class [\w]: alphanumerics and the underscore. *)
Definition is_word (c : char) : bool :=
  is_alnum c || (c =? 95)%N.

Definition upper_char (c : char) : pystr :=
  if is_ascii c
  then [if between 97 122 c then (c - 32)%N else c]
  else uni_upper c.

(** [s.upper()] *)
Definition upper (s : pystr) : pystr := flat_map upper_char s.

(** A pattern letter [p] (upper case, ASCII) against [c] under
    [re.IGNORECASE]. *)
Definition ieq (p c : char) : bool :=
  if is_ascii c
  then (c =? p)%N || (between 97 122 c && (c - 32 =? p)%N)
  else uni_ieq p c.

Fixpoint drop_spaces (s : pystr) : pystr :=
  match s with
  | c :: s' => if is_space c then drop_spaces s' else s
  | [] => []
  end.

(** [s.strip()] *)
Definition strip (s : pystr) : pystr :=
  rev (drop_spaces (rev (drop_spaces s))).

(** [s.split()]: the maximal runs of non-whitespace; [cur] is the run
    being read, last character first. *)
Fixpoint split_from (cur : pystr) (s : pystr) : list pystr :=
  match s with
  | [] => match cur with [] => [] | _ => [rev cur] end
  | c :: s' =>
      if is_space c
      then match cur with
           | [] => split_from [] s'
           | _ => rev cur :: split_from [] s'
           end
      else split_from (c :: cur) s'
  end.

Definition split (s : pystr) : list pystr := split_from [] s.

(** [s.replace(a, b)] for single characters. *)
Definition replace_char (a b : char) (s : pystr) : pystr :=
  map (fun c => if (c =? a)%N then b else c) s.

(** [s.replace(a, '')] *)
Definition remove_char (a : char) (s : pystr) : pystr :=
  filter (fun c => negb (c =? a)%N) s.

Fixpoint starts_with (p s : pystr) : bool :=
  match p, s with
  | [], _ => true
  | x :: p', y :: s' => (x =? y)%N && starts_with p' s'
  | _ :: _, [] => false
  end.

(** [p in s] *)
Fixpoint contains (p s : pystr) : bool :=
  starts_with p s ||
  match s with
  | [] => false
  | _ :: s' => contains p s'
  end.

(** [sep.join(l)] *)
Fixpoint join (sep : pystr) (l : list pystr) : pystr :=
  match l with
  | [] => []
  | [x] => x
  | x :: l' => x ++ sep ++ join sep l'
  end.

(** [sorted(l, key=len, reverse=True)]: stable, so equally long strings
    keep their order. *)
Fixpoint insert_by_len (x : pystr) (l : list pystr) : list pystr :=
  match l with
  | [] => [x]
  | y :: l' =>
      if (length x <? length y)%nat
      then y :: insert_by_len x l'
      else x :: l
  end.

Fixpoint sorted_len_desc (l : list pystr) : list pystr :=
  match l with
  | [] => []
  | x :: l' => insert_by_len x (sorted_len_desc l')
  end.

(** ** Regular expressions, matched by backtracking as [re] does *)

Inductive regex :=
| Eps
| Cls (p : char -> bool)            (* one character of a class *)
| Bnd                               (* [\b] *)
| Seq (a b : regex)
| Alt (a b : regex)                 (* [a|b], [a] first *)
| Rep (p : char -> bool) (least : nat)  (* greedy [p*] or [p+] *)
| Opt (a : regex).                  (* greedy [a?] *)

Definition word_at (c : option char) : bool :=
  match c with Some c => is_word c | None => false end.

Section Matching.
Context {A : Type}.

(** The matcher reads [s], the character before it being [prev], and
    hands what is left to the continuation [k]. *)
Fixpoint rep_match (p : char -> bool) (least : nat)
    (prev : option char) (s : pystr)
    (k : option char -> pystr -> option A) : option A :=
  let stop := match least with O => k prev s | S _ => None end in
  match s with
  | c :: s' =>
      if p c then
        match rep_match p (pred least) (Some c) s' k with
        | Some r => Some r
        | None => stop
        end
      else stop
  | [] => stop
  end.

Fixpoint re_match (r : regex) (prev : option char) (s : pystr)
    (k : option char -> pystr -> option A) : option A :=
  match r with
  | Eps => k prev s
  | Cls p =>
      match s with
      | c :: s' => if p c then k (Some c) s' else None
      | [] => None
      end
  | Bnd =>
      if xorb (word_at prev) (word_at (hd_error s)) then k prev s else None
  | Seq a b => re_match a prev s (fun prev' s' => re_match b prev' s' k)
  | Alt a b =>
      match re_match a prev s k with
      | Some r => Some r
      | None => re_match b prev s k
      end
  | Rep p least => rep_match p least prev s k
  | Opt a =>
      match re_match a prev s k with
      | Some r => Some r
      | None => k prev s
      end
  end.

End Matching.

(** A pattern with one group: what precedes the group, the group, what
    follows it. *)
Record pattern := mkPattern {
  pat_before : regex;
  pat_group : regex;
  pat_after : regex
}.

(** A match starting here: the text of the group and the length of the
    whole match. *)
Definition match_here (pat : pattern) (prev : option char) (s : pystr)
    : option (pystr * nat) :=
  re_match (pat_before pat) prev s (fun p1 s1 =>
  re_match (pat_group pat) p1 s1 (fun p2 s2 =>
  re_match (pat_after pat) p2 s2 (fun _ s3 =>
    Some (firstn (length s1 - length s2) s1, (length s - length s3)%nat)))).

(** [re.search(pat, s)], giving [group(1)]. *)
Fixpoint search_from (pat : pattern) (prev : option char) (s : pystr)
    : option pystr :=
  match match_here pat prev s with
  | Some (g, _) => Some g
  | None =>
      match s with
      | [] => None
      | c :: s' => search_from pat (Some c) s'
      end
  end.

Definition re_search (pat : pattern) (s : pystr) : option pystr :=
  search_from pat None s.

(** [re.findall(pat, s)]: the groups of the successive matches, none
    overlapping; [skip] characters still belong to the last match.  The
    patterns of the parser never match the empty string. *)
Fixpoint findall_from (pat : pattern) (prev : option char) (s : pystr)
    (skip : nat) : list pystr :=
  match s with
  | [] =>
      match skip, match_here pat prev [] with
      | O, Some (g, _) => [g]
      | _, _ => []
      end
  | c :: s' =>
      match skip with
      | S n => findall_from pat (Some c) s' n
      | O =>
          match match_here pat prev s with
          | Some (g, len) => g :: findall_from pat (Some c) s' (pred len)
          | None => findall_from pat (Some c) s' 0
          end
      end
  end.

Definition re_findall (pat : pattern) (s : pystr) : list pystr :=
  findall_from pat None s 0.

(** ** [float] *)

Fixpoint digits_value (acc : N) (s : pystr) : option N :=
  match s with
  | [] => Some acc
  | c :: s' =>
      match decimal_value c with
      | Some d => digits_value (acc * 10 + d) s'
      | None => None
      end
  end.

Fixpoint split_at_dot (s : pystr) : pystr * option pystr :=
  match s with
  | [] => ([], None)
  | c :: s' =>
      if (c =? 46)%N then ([], Some s')
      else let '(a, b) := split_at_dot s' in (c :: a, b)
  end.

(** [float(s)] for [s] made of digits and dots, the only strings
    [_extract_price] passes to it: digits with at most one dot and at
    least one digit, anything else raising [ValueError]. *)
Definition float_of_literal (s : pystr) : outcome Q :=
  let '(int_part, rest) := split_at_dot s in
  let frac_part := match rest with Some f => f | None => [] end in
  match int_part ++ frac_part with
  | [] => Raised ValueError
  | _ =>
      match digits_value 0 (int_part ++ frac_part) with
      | Some n =>
          Returned (inject_Z (Z.of_N n) / inject_Z (10 ^ Z.of_nat (length frac_part)))%Q
      | None => Raised ValueError
      end
  end.

End Primitives.

(** * parser.py *)

Module Parser.

(** A reading of the clock. *)
Definition datetime := Z.

Record ParsedSignal := mkSignal {
  direction : pystr;
  asset : pystr;
  timeframe : pystr;
  original_message : pystr;
  timestamp : datetime;
  entry_price : option Q
}.

(** The attributes of a [MessageParser]. *)
Record MessageParser := mkParser {
  config : Config;
  direction_lookup : dict pystr;
  asset_lookup : dict pystr;
  tf_lookup : dict pystr
}.

(** The first element [f] accepts: a [for] loop that returns from its
    body. *)
Fixpoint first_hit {X Y} (f : X -> option Y) (l : list X) : option Y :=
  match l with
  | [] => None
  | x :: l' =>
      match f x with
      | Some y => Some y
      | None => first_hit f l'
      end
  end.

Definition green_circle : char := 0x1F7E2%N.
Definition red_circle : char := 0x1F534%N.
Definition cross_mark : pystr := [0x274C%N].

Section WithUnicode.
Context {U : UnicodeData}.

(** [_load_config]: the loaded JSON, as it is. *)
Definition _load_config (source : Config) : outcome Config :=
  Returned source.

(** [for alias in aliases: table[alias.upper()] = canonical] *)
Definition set_aliases (canonical : pystr) (aliases : list pystr)
    (table : dict pystr) : dict pystr :=
  fold_left (fun t alias => dict_set (upper alias) canonical t) aliases table.

Definition build_direction_lookup (cfg : Config) : dict pystr :=
  fold_left (fun t '(direction, aliases) => set_aliases direction aliases t)
    (cfg_directions cfg) [].

Definition build_asset_lookup (cfg : Config) : dict pystr :=
  fold_left
    (fun t '(asset, data) =>
       let t1 := dict_set (upper asset) asset t in
       match entry_aliases data with
       | Some aliases => set_aliases asset aliases t1
       | None => t1
       end)
    (cfg_assets cfg) [].

Definition build_tf_lookup (cfg : Config) : dict pystr :=
  fold_left (fun t '(alias, tf) => dict_set (upper alias) tf t)
    (cfg_tf_aliases cfg) [].

Definition _build_lookup_tables (cfg : Config) : MessageParser := {|
  config := cfg;
  direction_lookup := build_direction_lookup cfg;
  asset_lookup := build_asset_lookup cfg;
  tf_lookup := build_tf_lookup cfg
|}.

(** [MessageParser.__init__] *)
Definition init (source : Config) : outcome MessageParser :=
  cfg <- _load_config source ;;
  Returned (_build_lookup_tables cfg).

(** [re.sub(r'[^\w🟢🔴]', '', word)] *)
Definition clean_direction (word : pystr) : pystr :=
  filter (fun c => is_word c || (c =? green_circle)%N || (c =? red_circle)%N)
    word.

(** [re.sub(r'[^\w]', '', word)] *)
Definition clean_word (word : pystr) : pystr := filter is_word word.

Definition _extract_direction (self : MessageParser) (message : pystr)
    : option pystr :=
  let words := split message in
  first_hit (fun word => dict_get (clean_direction word) (direction_lookup self))
    (firstn 3 words).

Definition _extract_asset (self : MessageParser) (message : pystr)
    : option pystr :=
  let words := split (replace_char 64%N 32%N message) in
  match first_hit (fun word => dict_get (clean_word word) (asset_lookup self))
          words with
  | Some a => Some a
  | None =>
      first_hit
        (fun alias =>
           if contains alias message
           then dict_get alias (asset_lookup self)
           else None)
        (sorted_len_desc (dict_keys (asset_lookup self)))
  end.

Definition is_MHD (c : char) : bool := ieq 77%N c || ieq 72%N c || ieq 68%N c.

(** [r'\b([MHD]\d+|\d+[MHD]|\d+MIN?|\d+)\b'] with [re.IGNORECASE] *)
Definition tf_pattern : pattern := {|
  pat_before := Bnd;
  pat_group :=
    Alt (Seq (Cls is_MHD) (Rep is_digit 1))
   (Alt (Seq (Rep is_digit 1) (Cls is_MHD))
   (Alt (Seq (Rep is_digit 1)
          (Seq (Cls (ieq 77%N)) (Seq (Cls (ieq 73%N)) (Opt (Cls (ieq 78%N))))))
        (Rep is_digit 1)));
  pat_after := Bnd
|}.

Definition _extract_timeframe (self : MessageParser) (message : pystr)
    : option pystr :=
  let matches := re_findall tf_pattern message in
  match first_hit (fun m => dict_get (upper m) (tf_lookup self)) matches with
  | Some tf => Some tf
  | None =>
      let words := split message in
      first_hit (fun word => dict_get (upper (clean_word word)) (tf_lookup self))
        words
  end.

(** [r'@\s*([\d.,]+)'] *)
Definition price_char (c : char) : bool :=
  is_digit c || (c =? 46)%N || (c =? 44)%N.

Definition price_pattern : pattern := {|
  pat_before := Seq (Cls (N.eqb 64)) (Rep is_space 0);
  pat_group := Rep price_char 1;
  pat_after := Eps
|}.

Definition _extract_price (message : pystr) : outcome (option Q) :=
  match re_search price_pattern message with
  | Some group1 =>
      let price_str := remove_char 44%N group1 in
      match float_of_literal price_str with
      | Returned price => Returned (Some price)
      | Raised ValueError => Returned None
      | Raised e => Raised e
      end
  | None => Returned None
  end.

Definition msg_no_direction : pystr :=
  cross_mark ++ py " Direction not found. Use: LONG/SHORT/BUY/SELL".

Definition msg_no_asset (self : MessageParser) : pystr :=
  cross_mark ++ py " Asset not recognized. Available: "
  ++ join (py ", ") (dict_keys (cfg_assets (config self))).

Definition msg_no_timeframe : pystr :=
  cross_mark ++ py " Timeframe not found. Use: M1/M5/M15/H1/H4".

Definition msg_tf_not_configured (timeframe asset : pystr)
    (available_tfs : list pystr) : pystr :=
  cross_mark ++ py " TF " ++ timeframe ++ py " not configured for " ++ asset
  ++ py ". Available: " ++ join (py ", ") available_tfs.

(** [[k for k in entry.keys() if k != "aliases"]] *)
Definition available_timeframes (e : AssetEntry) : list pystr :=
  filter (fun k => negb (str_eqb k k_aliases)) (dict_keys (entry_rules e)).

(** [parse]; [now] is what [datetime.now()] reads.  The tests
    [if not direction] and the like hold for [None] and for the empty
    string. *)
Definition parse (self : MessageParser) (now : datetime) (message : pystr)
    : outcome (option ParsedSignal * option pystr) :=
  let original := message in
  let message := upper (strip message) in
  match _extract_direction self message with
  | Some ((_ :: _) as direction) =>
    match _extract_asset self message with
    | Some ((_ :: _) as asset) =>
      match _extract_timeframe self message with
      | Some ((_ :: _) as timeframe) =>
          asset_obj <- dict_getitem asset (cfg_assets (config self)) ;;
          if negb (asset_contains timeframe asset_obj) then
            let available_tfs := available_timeframes asset_obj in
            Returned (None,
                      Some (msg_tf_not_configured timeframe asset available_tfs))
          else
            entry_price <- _extract_price message ;;
            Returned (Some {|
                        direction := direction;
                        asset := asset;
                        timeframe := timeframe;
                        original_message := original;
                        timestamp := now;
                        entry_price := entry_price
                      |}, None)
      | _ => Returned (None, Some msg_no_timeframe)
      end
    | _ => Returned (None, Some (msg_no_asset self))
    end
  | _ => Returned (None, Some msg_no_direction)
  end.

End WithUnicode.

End Parser.

(** * formatter.py *)

Module Formatter.

(** [x in l] for a list of strings. *)
Definition str_in (x : pystr) (l : list pystr) : bool :=
  existsb (str_eqb x) l.

Definition _format_number (value : float) (asset : pystr) : pystr :=
  if str_in asset [py "EURUSD"; py "GBPUSD"; py "AUDUSD"; py "USDCAD";
                   py "USDCHF"] then
    Binary64.format_float 5 value
  else if str_in asset [py "USDJPY"] then
    Binary64.format_float 3 value
  else if str_in asset [py "US30"; py "NAS100"; py "SPX500"] then
    Binary64.format_float 1 value
  else if str_in asset [py "BTCUSD"; py "ETHUSDT"; py "XAUUSD"] then
    Binary64.format_float 2 value
  else
    Binary64.format_float 2 value.

Definition _get_unit_symbol (unit : pystr) : pystr :=
  let symbols : dict pystr :=
    [ (py "%", py "%"); (py "pips", py " pips"); (py "points", py " pts") ] in
  dict_get_default unit (py "%") symbols.

End Formatter.

(** * bot.py *)

Module Bot.

Open Scope Q_scope.

Definition DEFAULT_PRICES : dict Q :=
  [ (py "BTCUSD", 65000); (py "ETHUSDT", 2450); (py "XAUUSD", 2350);
    (py "EURUSD", 1.0850); (py "GBPUSD", 1.2650); (py "USDJPY", 151.50);
    (py "US30", 39500); (py "NAS100", 17800) ].

(** [PriceProvider.get_price]; [if provided_price] fails for [None]
    and for zero. *)
Definition get_price (asset : pystr) (provided_price : option Q) : Q :=
  match provided_price with
  | Some p =>
      if Qeq_bool p 0 then dict_get_default asset 0 DEFAULT_PRICES else p
  | None => dict_get_default asset 0 DEFAULT_PRICES
  end.

Close Scope Q_scope.

(** [self.stats] *)
Record Stats := mkStats {
  signals_sent : Z;
  errors : Z;
  last_signal : option Parser.datetime
}.

(** The pipeline of a [TradingBot]; the formatter is a parameter of
    [process_message]. *)
Record TradingBot := mkBot {
  parser : Parser.MessageParser;
  calculator : Config;
  stats : Stats
}.

Definition msg_no_price (asset : pystr) : pystr :=
  Parser.cross_mark ++ py " Impossible de r" ++ [233%N] ++ py "cup"
  ++ [233%N] ++ py "rer le prix pour " ++ asset.

Section Pipeline.
Context {U : UnicodeData}.

(** A [FormattedSignal], and [self.formatter.format]. *)
Variable Formatted : Type.
Variable format : Calculator.TradingLevels -> outcome Formatted.

(** The dictionary [process_message] returns; [formatted] stands for
    the three entries taken from the formatted signal. *)
Record ProcessResult := mkResult {
  success : bool;
  error : option pystr;
  signal : option Parser.ParsedSignal;
  formatted : option Formatted
}.

(** [TradingBot.__init__]: parser and calculator load the same file. *)
Definition init (source : Config) : outcome TradingBot :=
  parser <- Parser.init source ;;
  calculator <- Calculator.init source ;;
  Returned {| parser := parser;
              calculator := calculator;
              stats := {| signals_sent := 0; errors := 0;
                          last_signal := None |} |}.

(** [process_message]; [now_parsed] and [now_sent] are the two readings
    of the clock.  It returns the result and the bot with its
    statistics. *)
Definition process_message (self : TradingBot)
    (now_parsed now_sent : Parser.datetime) (message : pystr)
    : outcome (ProcessResult * TradingBot) :=
  parsed <- Parser.parse (parser self) now_parsed message ;;
  let '(signal, error) := parsed in
  match error with
  | Some (_ :: _) =>
      Returned ({| success := false; error := error;
                   signal := None; formatted := None |}, self)
  | _ =>
      match signal with
      | None => Raised AttributeError
      | Some signal =>
          let price :=
            get_price (Parser.asset signal) (Parser.entry_price signal) in
          if Qeq_bool price 0 then
            Returned ({| success := false;
                         error := Some (msg_no_price (Parser.asset signal));
                         signal := Some signal; formatted := None |}, self)
          else
            levels <- Calculator.calculate (calculator self)
                        (Parser.direction signal) (Parser.asset signal)
                        (Parser.timeframe signal) price ;;
            formatted <- format levels ;;
            Returned
              ({| success := true; error := None;
                  signal := Some signal; formatted := Some formatted |},
               {| parser := parser self;
                  calculator := calculator self;
                  stats :=
                    {| signals_sent := signals_sent (stats self) + 1;
                       errors := errors (stats self);
                       last_signal := Some now_sent |} |})
      end
  end.

End Pipeline.

End Bot.

(** * sheets_integration.py *)

Module Sheets.

(** A cell of a sheet: text or a number. *)
Inductive cell :=
| CText (s : pystr)
| CNumber (q : Q).

(** What reading the worksheet gave [get_stats]. *)
Inductive sheet_read :=
| NotConnected                       (* [self.spreadsheet] is unset *)
| ReadFailed (reason : pystr)        (* an exception [e], as [str(e)] *)
| Records (records : list (dict cell)).

Record StatsReport := mkReport {
  total_signals : nat;
  wins : nat;
  losses : nat;
  pending : Z;
  win_rate : pystr
}.

(** [r.get("Result") == value] *)
Definition result_is (value : pystr) (r : dict cell) : bool :=
  match dict_get (py "Result") r with
  | Some (CText s) => str_eqb s value
  | _ => false
  end.

(** [get_stats]: an error text or the report. *)
Definition get_stats (read : sheet_read) : pystr + StatsReport :=
  match read with
  | NotConnected => inl (py "Non connect" ++ [233%N])
  | ReadFailed reason => inl reason
  | Records records =>
      let total := length records in
      let wins := length (filter (result_is (py "WIN")) records) in
      let losses := length (filter (result_is (py "LOSS")) records) in
      let pending := (Z.of_nat total - Z.of_nat wins - Z.of_nat losses)%Z in
      inr {| total_signals := total;
             wins := wins;
             losses := losses;
             pending := pending;
             win_rate :=
               if (0 <? total)%nat
               then format_fixed 1
                      (inject_Z (Z.of_nat wins) / inject_Z (Z.of_nat total)
                       * 100)%Q
                    ++ py "%"
               else py "N/A" |}
  end.

End Sheets.

(** * Example tables *)

(** A small table for the examples: the rule the specification's
    scenarios assume for BTCUSD/M5, a pip asset and a point asset. *)
Definition demo_config : Config := {|
  cfg_directions :=
    [ (py "LONG", [py "LONG"; py "BUY"; [0x1F7E2%N]]);
      (py "SHORT", [py "SHORT"; py "SELL"; [0x1F534%N]]) ];
  cfg_assets :=
    [ (py "BTCUSD",
       mkAsset (Some [py "BTC"; py "BITCOIN"])
         [ (py "M5", mkRule 1%Q 2%Q 3.5%Q 1.5%Q (Some (py "%"))) ]);
      (py "EURUSD",
       mkAsset (Some [py "EUR"])
         [ (py "M15", mkRule 10%Q 20%Q 30%Q 15%Q (Some (py "pips"))) ]);
      (py "US30",
       mkAsset (Some [py "DOW"])
         [ (py "H1", mkRule 50%Q 100%Q 150%Q 75%Q (Some (py "points"))) ]) ];
  cfg_tf_aliases :=
    [ (py "M5", py "M5"); (py "5M", py "M5"); (py "5", py "M5");
      (py "M15", py "M15"); (py "15", py "M15"); (py "H1", py "H1") ]
|}.

Definition demo_parser : Parser.MessageParser :=
  @Parser._build_lookup_tables ascii_tables demo_config.

Definition odd_unit_config : Config := {|
  cfg_directions := cfg_directions demo_config;
  cfg_assets :=
    [ (py "BTCUSD",
       mkAsset None [ (py "M5", mkRule 1%Q 2%Q 3%Q 2%Q (Some (py "furlongs")));
                      (py "H1", mkRule 1%Q 2%Q 3%Q 2%Q None) ]) ];
  cfg_tf_aliases := cfg_tf_aliases demo_config
|}.

(** Rule rows in binary64: two percent rows, a pip row, a point row
    and a row without unit. *)
Definition demo_assets64 : dict Binary64.AssetEntry :=
  [ (py "BTCUSD",
     Binary64.mkAsset (Some [py "BTC"; py "BITCOIN"])
       [ (py "M1", Binary64.mkRule 0.5 1 1.5 0.7 (Some (py "%")));
         (py "M5", Binary64.mkRule 1 2 3.5 1.5 (Some (py "%"))) ]);
    (py "EURUSD",
     Binary64.mkAsset (Some [py "EUR"])
       [ (py "M15", Binary64.mkRule 10 20 30 15 (Some (py "pips"))) ]);
    (py "US30",
     Binary64.mkAsset (Some [py "DOW"])
       [ (py "H1", Binary64.mkRule 50 100 150 75 (Some (py "points"))) ]);
    (py "XAUUSD",
     Binary64.mkAsset None
       [ (py "M15", Binary64.mkRule 9 9 9 40 None) ]) ]%float.

(** * Notions of the specification *)

(** The rule row of an (asset, timeframe) pair, when the table has one. *)
Definition lookup_rule (cfg : Config) (asset timeframe : pystr)
    : option LevelRule :=
  match dict_get asset (cfg_assets cfg) with
  | Some e =>
      match asset_get timeframe e with
      | Some (FRule r) => Some r
      | _ => None
      end
  | None => None
  end.

Inductive unit_kind := Percent | Pips | Points.

(** The unit a unit string stands for in [calculate]'s dispatch. *)
Definition unit_kind_of (unit : pystr) : unit_kind :=
  if str_eqb unit (py "pips") then Pips
  else if str_eqb unit (py "points") then Points
  else Percent.

Definition pip_size (asset : pystr) : Q :=
  dict_get_default asset 0.0001%Q Calculator.PIP_VALUES.

Definition point_value (asset : pystr) : Q :=
  dict_get_default asset 1%Q Calculator.POINT_VALUES.

(** The price move a distance stands for, as the sign-convention table
    of the specification defines it. *)
Definition delta (k : unit_kind) (asset : pystr) (entry distance : Q) : Q :=
  match k with
  | Percent => entry * distance / 100
  | Pips => distance * pip_size asset
  | Points => distance * point_value asset
  end%Q.

(** The same notions for the calculator on binary64 numbers. *)
Definition lookup_rule64 (assets : dict Binary64.AssetEntry)
    (asset timeframe : pystr) : option Binary64.LevelRule :=
  match dict_get asset assets with
  | Some e =>
      match Binary64.asset_get timeframe e with
      | Some (Binary64.FRule r) => Some r
      | _ => None
      end
  | None => None
  end.

Definition unit_string64 (r : Binary64.LevelRule) : pystr :=
  match Binary64.rule_unit r with Some u => u | None => py "%" end.

Definition pip_size64 (asset : pystr) : float :=
  dict_get_default asset 0.0001%float Binary64.PIP_VALUES.

Definition point_value64 (asset : pystr) : float :=
  dict_get_default asset 1%float Binary64.POINT_VALUES.

(** The level at a distance above ([upward]) or below the entry price:
    the entry plus or minus the distance in pips or points, or the
    entry times one plus or minus the distance in hundredths. *)
Definition level64 (k : unit_kind) (asset : pystr) (entry : float)
    (upward : bool) (distance : float) : float :=
  match k, upward with
  | Percent, true => entry * (1 + distance / 100)
  | Percent, false => entry * (1 - distance / 100)
  | Pips, true => entry + distance * pip_size64 asset
  | Pips, false => entry - distance * pip_size64 asset
  | Points, true => entry + distance * point_value64 asset
  | Points, false => entry - distance * point_value64 asset
  end%float.

(** A binary64 number that is not negative: a zero, a positive number
    or the positive infinity. *)
Definition sf_nonneg (x : spec_float) : Prop :=
  match x with
  | S754_zero _ => True
  | S754_infinity s => s = false
  | S754_finite s _ _ => s = false
  | S754_nan => False
  end.

(** A binary64 number that is a number: neither an infinity nor a
    NaN. *)
Definition is_number (x : float) : bool :=
  match Prim2SF x with
  | S754_zero _ | S754_finite _ _ _ => true
  | S754_infinity _ | S754_nan => false
  end.

(** The writes [_build_lookup_tables] makes to a lookup table, in the
    order it makes them: (key, canonical value). *)
Section Writes.
Context {U : UnicodeData}.

Definition direction_writes (cfg : Config) : list (pystr * pystr) :=
  flat_map (fun '(direction, aliases) =>
              map (fun alias => (upper alias, direction)) aliases)
    (cfg_directions cfg).

Definition asset_writes (cfg : Config) : list (pystr * pystr) :=
  flat_map (fun '(asset, data) =>
              (upper asset, asset) ::
              match entry_aliases data with
              | Some aliases => map (fun alias => (upper alias, asset)) aliases
              | None => []
              end)
    (cfg_assets cfg).

Definition tf_writes (cfg : Config) : list (pystr * pystr) :=
  map (fun '(alias, tf) => (upper alias, tf)) (cfg_tf_aliases cfg).

(** The value written last under [k]. *)
Definition last_write (k : pystr) (writes : list (pystr * pystr))
    : option pystr :=
  dict_get k (rev writes).

(** A key written with two different canonical values. *)
Definition reused_alias (writes : list (pystr * pystr)) : bool :=
  existsb (fun w1 =>
    existsb (fun w2 =>
      str_eqb (fst w1) (fst w2) && negb (str_eqb (snd w1) (snd w2)))
      writes)
    writes.

Definition all_rules (cfg : Config) : list LevelRule :=
  flat_map (fun '(_, data) => map snd (entry_rules data)) (cfg_assets cfg).

Definition negative (q : Q) : bool := negb (Qle_bool 0 q).

Definition has_negative_distance (r : LevelRule) : bool :=
  negative (rule_tp1 r) || negative (rule_tp2 r)
  || negative (rule_tp3 r) || negative (rule_sl r).

Definition has_unknown_unit (r : LevelRule) : bool :=
  match rule_unit r with
  | Some u =>
      negb (str_eqb u (py "%") || str_eqb u (py "pips")
            || str_eqb u (py "points"))
  | None => false
  end.

(** The configurations the specification has the loader reject. *)
Definition spec_invalid (cfg : Config) : bool :=
  reused_alias (direction_writes cfg) || reused_alias (asset_writes cfg)
  || reused_alias (tf_writes cfg)
  || existsb has_negative_distance (all_rules cfg)
  || existsb has_unknown_unit (all_rules cfg).

End Writes.

(** A table with the three defects: GOLD names two assets, a distance is
    negative, a unit is unknown. *)
Definition bad_config : Config := {|
  cfg_directions := [ (py "LONG", [py "LONG"]); (py "SHORT", [py "SHORT"]) ];
  cfg_assets :=
    [ (py "XAUUSD",
       mkAsset (Some [py "GOLD"])
         [ (py "M5", mkRule 1%Q 2%Q 3%Q (-1)%Q (Some (py "%"))) ]);
      (py "PAXGUSD",
       mkAsset (Some [py "GOLD"])
         [ (py "M5", mkRule 1%Q 2%Q 3%Q 2%Q (Some (py "furlongs"))) ]) ];
  cfg_tf_aliases := [ (py "M5", py "M5") ]
|}.

(** Direction extraction as the specification words it: of the first
    three tokens, stripped of their non-alphanumeric characters other
    than the two glyphs, the first that is an alias decides. *)
Section SpecExtraction.
Context {U : UnicodeData}.

Definition spec_clean_direction (word : pystr) : pystr :=
  filter (fun c => is_alnum c || (c =? Parser.green_circle)%N
                   || (c =? Parser.red_circle)%N) word.

Definition spec_extract_direction (self : Parser.MessageParser)
    (message : pystr) : option pystr :=
  Parser.first_hit
    (fun word => dict_get (spec_clean_direction word)
                   (Parser.direction_lookup self))
    (firstn 3 (split message)).

(** The first pass of [_extract_asset]: a token equal to an alias. *)
Definition exact_token_match (self : Parser.MessageParser)
    (message : pystr) : option pystr :=
  Parser.first_hit
    (fun word => dict_get (Parser.clean_word word) (Parser.asset_lookup self))
    (split (replace_char 64%N 32%N message)).

End SpecExtraction.

(** Writing a list of (key, value) pairs in order. *)
Definition apply_writes (ws : list (pystr * pystr)) (t : dict pystr)
    : dict pystr :=
  fold_left (fun t w => dict_set (fst w) (snd w) t) ws t.

(** The order [sorted(.., key=len, reverse=True)] establishes. *)
Definition at_least_as_long (a b : pystr) : Prop :=
  (length b <= length a)%nat.

(** A table whose timeframe alias ALL points at the name of the key
    that holds the alias lists. *)
Definition alias_key_config : Config := {|
  cfg_directions := cfg_directions demo_config;
  cfg_assets :=
    [ (py "BTCUSD",
       mkAsset (Some [py "BTC"])
         [ (py "M5", mkRule 1%Q 2%Q 3%Q 2%Q (Some (py "%"))) ]) ];
  cfg_tf_aliases := [ (py "M5", py "M5"); (py "ALL", py "aliases") ]
|}.


(** The unit string [calculate] works with. *)
Definition unit_string (r : LevelRule) : pystr :=
  match rule_unit r with Some u => u | None => py "%" end.

Definition is_ascii_digit (c : char) : Prop := (48 <= c <= 57)%N.

(** Two characters that are equal or the two cases of one ASCII
    letter. *)
Definition same_letter (c c' : char) : Prop :=
  c = c' \/
  (between 65 90 c = true /\ c' = (c + 32)%N) \/
  (between 65 90 c' = true /\ c = (c' + 32)%N).

(** The signal with another raw message on record. *)
Definition with_original (raw : pystr) (s : Parser.ParsedSignal)
    : Parser.ParsedSignal :=
  {| Parser.direction := Parser.direction s;
     Parser.asset := Parser.asset s;
     Parser.timeframe := Parser.timeframe s;
     Parser.original_message := raw;
     Parser.timestamp := Parser.timestamp s;
     Parser.entry_price := Parser.entry_price s |}.

(** * Properties *)

(** ** Strings and dictionaries *)

Lemma str_eqb_eq (a b : pystr) : str_eqb a b = true <-> a = b.
Proof.
  revert b; induction a as [|x a IH]; intros [|y b]; simpl;
    try (split; [discriminate | congruence]); try tauto.
  rewrite andb_true_iff, N.eqb_eq, IH.
  split; [intros [-> ->]; reflexivity | intros E; inversion E; auto].
Qed.

Lemma str_eqb_refl (a : pystr) : str_eqb a a = true.
Proof. apply str_eqb_eq; reflexivity. Qed.

Lemma str_eqb_neq (a b : pystr) : str_eqb a b = false <-> a <> b.
Proof.
  rewrite <- str_eqb_eq. destruct (str_eqb a b); split; congruence.
Qed.

(** ** The calculator *)

Open Scope Q_scope.

(** What [calculate] returns once the rule row is found. *)
Lemma calculate_found cfg d a tf p r :
  lookup_rule cfg a tf = Some r ->
  exists lv,
    Calculator.calculate cfg d a tf p = Returned lv /\
    Calculator.unit lv =
      match rule_unit r with Some u => u | None => py "%" end /\
    (Calculator.tp1 lv, Calculator.tp2 lv, Calculator.tp3 lv, Calculator.sl lv) =
      match unit_kind_of (Calculator.unit lv) with
      | Pips =>
          Calculator._calc_pips d p (pip_size a)
            (rule_tp1 r) (rule_tp2 r) (rule_tp3 r) (rule_sl r)
      | Points =>
          Calculator._calc_points d p (point_value a)
            (rule_tp1 r) (rule_tp2 r) (rule_tp3 r) (rule_sl r)
      | Percent =>
          Calculator._calc_percentage d p
            (rule_tp1 r) (rule_tp2 r) (rule_tp3 r) (rule_sl r)
      end /\
    Calculator.rr_ratio lv =
      (if Qlt_le_dec 0 (rule_sl r)
       then py_round2 ((rule_tp1 r + rule_tp2 r + rule_tp3 r) / 3 / rule_sl r)
       else 0).
Proof.
  unfold lookup_rule, Calculator.calculate, dict_getitem, asset_getitem.
  destruct (dict_get a (cfg_assets cfg)) as [e|]; [|discriminate].
  cbn [bind].
  destruct (asset_get tf e) as [[l|r']|]; try discriminate.
  intros [= ->]. cbn [bind]. cbv zeta.
  set (u := match rule_unit r with Some u => u | None => py "%" end).
  assert (Hrr : exists q,
    (if Qlt_le_dec 0 (rule_sl r)
     then (q <- py_div ((rule_tp1 r + rule_tp2 r + rule_tp3 r) / 3) (rule_sl r) ;;
           Returned (py_round2 q))
     else Returned 0) = Returned q /\
    q = (if Qlt_le_dec 0 (rule_sl r)
         then py_round2 ((rule_tp1 r + rule_tp2 r + rule_tp3 r) / 3 / rule_sl r)
         else 0)).
  { destruct (Qlt_le_dec 0 (rule_sl r)) as [Hpos|Hle].
    - unfold py_div.
      destruct (Qeq_bool (rule_sl r) 0) eqn:E.
      + apply Qeq_bool_eq in E. rewrite E in Hpos.
        exfalso; revert Hpos; apply Qlt_irrefl.
      + cbn [bind]. eexists; split; reflexivity.
    - eexists; split; reflexivity. }
  destruct Hrr as (q & Hq & Hqv).
  unfold unit_kind_of, pip_size, point_value.
  destruct (str_eqb u (py "pips")) eqn:E1;
    [| destruct (str_eqb u (py "points")) eqn:E2 ].
  all: unfold Calculator._calc_pips, Calculator._calc_points,
         Calculator._calc_percentage;
       destruct (str_eqb d (py "LONG")); cbv iota beta;
       rewrite Hq; cbn [bind]; eexists; (split; [reflexivity|]);
       cbn [Calculator.unit Calculator.tp1 Calculator.tp2 Calculator.tp3
            Calculator.sl Calculator.rr_ratio];
       rewrite ?E1, ?E2; auto.
Qed.



(** In exact arithmetic the levels are the entry price plus or minus
    [delta]: [entry*distance/100], [distance*pipSize] or
    [distance*pointValue], according to the unit of the rule row. *)
Lemma exact_sign_convention cfg a tf p r :
  lookup_rule cfg a tf = Some r ->
  let dl := delta (unit_kind_of (unit_string r)) a p in
  (exists lv,
     Calculator.calculate cfg (py "LONG") a tf p = Returned lv /\
     Calculator.tp1 lv == p + dl (rule_tp1 r) /\
     Calculator.tp2 lv == p + dl (rule_tp2 r) /\
     Calculator.tp3 lv == p + dl (rule_tp3 r) /\
     Calculator.sl lv == p - dl (rule_sl r)) /\
  (exists lv,
     Calculator.calculate cfg (py "SHORT") a tf p = Returned lv /\
     Calculator.tp1 lv == p - dl (rule_tp1 r) /\
     Calculator.tp2 lv == p - dl (rule_tp2 r) /\
     Calculator.tp3 lv == p - dl (rule_tp3 r) /\
     Calculator.sl lv == p + dl (rule_sl r)).
Proof.
  intros Hr dl. subst dl. unfold unit_string. split.
  - destruct (calculate_found cfg (py "LONG") a tf p r Hr)
      as (lv & Hc & Hu & Hl & _).
    exists lv; split; [exact Hc|]. rewrite <- Hu.
    destruct (unit_kind_of (Calculator.unit lv)); cbn in Hl;
      injection Hl as -> -> -> ->; cbn [delta]; repeat split;
      unfold Qdiv; ring.
  - destruct (calculate_found cfg (py "SHORT") a tf p r Hr)
      as (lv & Hc & Hu & Hl & _).
    exists lv; split; [exact Hc|]. rewrite <- Hu.
    destruct (unit_kind_of (Calculator.unit lv)); cbn in Hl;
      injection Hl as -> -> -> ->; cbn [delta]; repeat split;
      unfold Qdiv; ring.
Qed.

Close Scope Q_scope.

(** ** Signs of binary64 results *)

Lemma shr_1_nonneg mrs : (0 <= shr_m mrs -> 0 <= shr_m (shr_1 mrs))%Z.
Proof.
  destruct mrs as [m r s]. cbn.
  destruct m as [|[p|p|]|[p|p|]]; cbn; lia.
Qed.

Lemma iter_shr_1_nonneg p : forall mrs,
  (0 <= shr_m mrs -> 0 <= shr_m (SpecFloat.iter_pos shr_1 p mrs))%Z.
Proof.
  induction p as [p IH|p IH|]; intros mrs H; cbn.
  - apply IH, IH, shr_1_nonneg, H.
  - apply IH, IH, H.
  - apply shr_1_nonneg, H.
Qed.

Lemma shr_fexp_nonneg prec emax m e l :
  (0 <= m -> 0 <= shr_m (fst (shr_fexp prec emax m e l)))%Z.
Proof.
  intros H. unfold shr_fexp, shr.
  assert (H0 : (0 <= shr_m (shr_record_of_loc m l))%Z).
  { destruct l as [|[| |]]; exact H. }
  destruct (_ - _)%Z; cbn [fst]; auto using iter_shr_1_nonneg.
Qed.

Lemma round_nearest_even_nonneg m l :
  (0 <= m -> 0 <= round_nearest_even m l)%Z.
Proof.
  intros H. destruct l as [|[| |]]; cbn; try lia.
  destruct (Z.even m); lia.
Qed.

Lemma binary_round_aux_sign prec emax s m e l :
  (0 <= m)%Z ->
  match binary_round_aux prec emax s m e l with
  | S754_zero s' | S754_infinity s' | S754_finite s' _ _ => s' = s
  | S754_nan => False
  end.
Proof.
  intros H. unfold binary_round_aux.
  pose proof (shr_fexp_nonneg prec emax m e l H) as H1.
  destruct (shr_fexp prec emax m e l) as [mrs' e']. cbn [fst] in H1.
  pose proof (shr_fexp_nonneg prec emax _ e' loc_Exact
                (round_nearest_even_nonneg _ (loc_of_shr_record mrs') H1)) as H2.
  destruct (shr_fexp prec emax _ e' loc_Exact) as [mrs'' e'']. cbn [fst] in H2.
  destruct (shr_m mrs''); try lia; auto.
  destruct (_ <=? _)%Z; reflexivity.
Qed.

Lemma binary_round_aux_nonneg prec emax m e l :
  (0 <= m)%Z -> sf_nonneg (binary_round_aux prec emax false m e l).
Proof.
  intros H. pose proof (binary_round_aux_sign prec emax false m e l H) as S.
  destruct (binary_round_aux prec emax false m e l); cbn; auto.
Qed.

Lemma binary_normalize_nonneg prec emax m e :
  (0 <= m)%Z -> sf_nonneg (binary_normalize prec emax m e false).
Proof.
  intros H. destruct m as [|p|p]; cbn; auto; try lia.
  unfold binary_round. destruct (shl_align _ _ _) as [mz ez].
  apply binary_round_aux_nonneg. lia.
Qed.

Lemma SFadd_nonneg prec emax x y :
  sf_nonneg x -> sf_nonneg y -> sf_nonneg (SFadd prec emax x y).
Proof.
  destruct x as [sx|sx| |sx mx ex], y as [sy|sy| |sy my ey];
    intros Hx Hy; cbn in Hx, Hy; subst; try contradiction;
    try exact I; try reflexivity.
  - destruct sx, sy; exact I.
  - unfold SFadd. apply binary_normalize_nonneg.
    unfold cond_Zopp. lia.
Qed.

Lemma SFdiv_nonneg prec emax x m e :
  sf_nonneg x -> sf_nonneg (SFdiv prec emax x (S754_finite false m e)).
Proof.
  destruct x as [sx|sx| |sx mx ex]; cbn; intros Hx; subst; try contradiction; auto.
  unfold SFdiv_core_binary.
  set (s := (_ - _ - _)%Z).
  set (m' := match s with Z0 => _ | Zpos _ => _ | Zneg _ => _ end).
  assert (Hm' : (0 <= m')%Z).
  { subst m'. destruct s; try lia. apply Z.shiftl_nonneg. lia. }
  pose proof (Z.div_pos m' (Zpos m) Hm' ltac:(lia)) as Hq.
  unfold Z.div in Hq.
  destruct (Z.div_eucl m' (Zpos m)) as [q r].
  apply binary_round_aux_nonneg. exact Hq.
Qed.

Lemma leb_0_nonneg x : (0 <=? x)%float = true <-> sf_nonneg (Prim2SF x).
Proof.
  rewrite FloatAxioms.leb_spec. change (Prim2SF 0) with (S754_zero false).
  destruct (Prim2SF x) as [s|s| |s m e]; cbn; try destruct s; cbn; intuition congruence.
Qed.

Lemma ltb_0_not_zero x : (0 <? x)%float = true -> (x =? 0)%float = false.
Proof.
  rewrite FloatAxioms.ltb_spec, FloatAxioms.eqb_spec.
  change (Prim2SF 0) with (S754_zero false).
  destruct (Prim2SF x) as [s|s| |s m e]; cbn; try destruct s; cbn;
    congruence.
Qed.

Lemma eqb_0_not_above x : (x =? 0)%float = true -> (0 <? x)%float = false.
Proof.
  rewrite FloatAxioms.ltb_spec, FloatAxioms.eqb_spec.
  change (Prim2SF 0) with (S754_zero false).
  destruct (Prim2SF x) as [s|s| |s m e]; cbn; try destruct s; cbn;
    congruence.
Qed.

(** A number above zero is a positive finite one. *)
Lemma positive_number x :
  (0 <? x)%float = true -> is_number x = true ->
  exists m e, Prim2SF x = S754_finite false m e.
Proof.
  unfold is_number. rewrite FloatAxioms.ltb_spec.
  change (Prim2SF 0) with (S754_zero false).
  destruct (Prim2SF x) as [s|s| |s m e]; cbn; try discriminate.
  destruct s; [discriminate|]. eauto.
Qed.

Lemma add_nonneg x y :
  (0 <=? x)%float = true -> (0 <=? y)%float = true ->
  (0 <=? x + y)%float = true.
Proof.
  rewrite !leb_0_nonneg, add_spec. apply SFadd_nonneg.
Qed.

Lemma div_nonneg x y :
  (0 <=? x)%float = true -> (0 <? y)%float = true -> is_number y = true ->
  (0 <=? x / y)%float = true.
Proof.
  intros Hx Hy Hn. destruct (positive_number y Hy Hn) as (m & e & E).
  revert Hx. rewrite !leb_0_nonneg, div_spec, E. apply SFdiv_nonneg.
Qed.

Lemma of_uint63_nonneg n : (0 <=? of_uint63 n)%float = true.
Proof.
  rewrite leb_0_nonneg, of_uint63_spec.
  apply binary_normalize_nonneg.
  apply (Uint63.to_Z_bounded n).
Qed.

Lemma py_round2_sign x :
  (0 <=? x)%float = true -> (0 <=? Binary64.py_round2 x)%float = true.
Proof.
  intros Hx. unfold Binary64.py_round2.
  destruct (Prim2SF x) as [s|s| |s m e] eqn:E; try exact Hx.
  destruct (Qle_bool _ _); [exact Hx|].
  apply leb_0_nonneg in Hx. rewrite E in Hx. cbn in Hx. subst s.
  apply div_nonneg; [apply of_uint63_nonneg | reflexivity | reflexivity].
Qed.

(** ** The calculator on binary64 numbers *)

(** What [calculate] returns once the rule row is found. *)
Lemma calculate64_found assets d a tf p r :
  lookup_rule64 assets a tf = Some r ->
  exists lv,
    Binary64.calculate assets d a tf p = Returned lv /\
    Binary64.unit lv = unit_string64 r /\
    (Binary64.tp1 lv, Binary64.tp2 lv, Binary64.tp3 lv, Binary64.sl lv) =
      match unit_kind_of (unit_string64 r) with
      | Pips =>
          Binary64._calc_pips d p (pip_size64 a)
            (Binary64.rule_tp1 r) (Binary64.rule_tp2 r)
            (Binary64.rule_tp3 r) (Binary64.rule_sl r)
      | Points =>
          Binary64._calc_points d p (point_value64 a)
            (Binary64.rule_tp1 r) (Binary64.rule_tp2 r)
            (Binary64.rule_tp3 r) (Binary64.rule_sl r)
      | Percent =>
          Binary64._calc_percentage d p
            (Binary64.rule_tp1 r) (Binary64.rule_tp2 r)
            (Binary64.rule_tp3 r) (Binary64.rule_sl r)
      end /\
    Binary64.rr_ratio lv =
      (if 0 <? Binary64.rule_sl r
       then Binary64.py_round2
              ((Binary64.rule_tp1 r + Binary64.rule_tp2 r
                + Binary64.rule_tp3 r) / 3 / Binary64.rule_sl r)
       else 0)%float.
Proof.
  unfold lookup_rule64, Binary64.calculate, dict_getitem,
    Binary64.asset_getitem.
  destruct (dict_get a assets) as [e|]; [|discriminate].
  cbn [bind].
  destruct (Binary64.asset_get tf e) as [[l|r']|]; try discriminate.
  intros [= ->]. cbn [bind]. cbv zeta.
  fold (unit_string64 r).
  set (u := unit_string64 r).
  assert (Hrr : exists q,
    (if (0 <? Binary64.rule_sl r)%float
     then (q <- Binary64.py_truediv
                  ((Binary64.rule_tp1 r + Binary64.rule_tp2 r
                    + Binary64.rule_tp3 r) / 3)%float (Binary64.rule_sl r) ;;
           Returned (Binary64.py_round2 q))
     else Returned 0%float) = Returned q /\
    q = (if 0 <? Binary64.rule_sl r
         then Binary64.py_round2
                ((Binary64.rule_tp1 r + Binary64.rule_tp2 r
                  + Binary64.rule_tp3 r) / 3 / Binary64.rule_sl r)
         else 0)%float).
  { destruct (0 <? Binary64.rule_sl r)%float eqn:Hpos.
    - unfold Binary64.py_truediv.
      rewrite (ltb_0_not_zero _ Hpos). cbn [bind].
      eexists; split; reflexivity.
    - eexists; split; reflexivity. }
  destruct Hrr as (q & Hq & Hqv).
  unfold unit_kind_of, pip_size64, point_value64.
  destruct (str_eqb u (py "pips")) eqn:E1;
    [| destruct (str_eqb u (py "points")) eqn:E2 ].
  all: unfold Binary64._calc_pips, Binary64._calc_points,
         Binary64._calc_percentage;
       destruct (str_eqb d (py "LONG")); cbv iota beta;
       rewrite Hq; cbn [bind]; eexists; (split; [reflexivity|]);
       cbn [Binary64.unit Binary64.tp1 Binary64.tp2 Binary64.tp3
            Binary64.sl Binary64.rr_ratio];
       rewrite ?E1, ?E2; auto.
Qed.

(** C1, as the code has it.  For LONG and SHORT, every entry price and
    every rule row, the levels [calculate] returns follow the sign
    convention, the unit being the one of the rule row: for pips and
    points LONG puts the take-profits at [entry + distance*size] and
    the stop at [entry - distance*size], SHORT the other way round; for
    percent LONG puts the take-profits at [entry * (1 + distance/100)]
    and the stop at [entry * (1 - distance/100)], SHORT the other way
    round.  Each operation is the binary64 one. *)
Theorem calculate_sign_convention assets a tf p r :
  lookup_rule64 assets a tf = Some r ->
  let level := level64 (unit_kind_of (unit_string64 r)) a p in
  (exists lv,
     Binary64.calculate assets (py "LONG") a tf p = Returned lv /\
     Binary64.tp1 lv = level true (Binary64.rule_tp1 r) /\
     Binary64.tp2 lv = level true (Binary64.rule_tp2 r) /\
     Binary64.tp3 lv = level true (Binary64.rule_tp3 r) /\
     Binary64.sl lv = level false (Binary64.rule_sl r)) /\
  (exists lv,
     Binary64.calculate assets (py "SHORT") a tf p = Returned lv /\
     Binary64.tp1 lv = level false (Binary64.rule_tp1 r) /\
     Binary64.tp2 lv = level false (Binary64.rule_tp2 r) /\
     Binary64.tp3 lv = level false (Binary64.rule_tp3 r) /\
     Binary64.sl lv = level true (Binary64.rule_sl r)).
Proof.
  intros Hr level. subst level. split.
  - destruct (calculate64_found assets (py "LONG") a tf p r Hr)
      as (lv & Hc & _ & Hl & _).
    exists lv; split; [exact Hc|].
    destruct (unit_kind_of (unit_string64 r)); cbn in Hl;
      injection Hl as -> -> -> ->; cbn [level64]; repeat split.
  - destruct (calculate64_found assets (py "SHORT") a tf p r Hr)
      as (lv & Hc & _ & Hl & _).
    exists lv; split; [exact Hc|].
    destruct (unit_kind_of (unit_string64 r)); cbn in Hl;
      injection Hl as -> -> -> ->; cbn [level64]; repeat split.
Qed.

Lemma calculate_sign_convention_witness :
  exists lv,
    Binary64.calculate demo_assets64 (py "SHORT") (py "EURUSD") (py "M15")
      1.085%float = Returned lv /\
    Binary64.tp1 lv = (1.085 - 10 * 0.0001)%float /\
    Binary64.tp3 lv = (1.085 - 30 * 0.0001)%float /\
    Binary64.sl lv = (1.085 + 15 * 0.0001)%float.
Proof.
  destruct (calculate_sign_convention demo_assets64 (py "EURUSD") (py "M15")
              1.085%float
              (Binary64.mkRule 10 20 30 15 (Some (py "pips"))) eq_refl)
    as [_ (lv & Hc & H1 & _ & H3 & Hs)].
  exists lv. split; [exact Hc|].
  rewrite H1, H3, Hs. repeat split.
Defined.

(** C1 fails as the specification words it: on the percent row
    BTCUSD/M1 a LONG at 65000 has its first take-profit at
    [65000 * (1 + 0.5/100)], which is 65324.99999999999 in binary64,
    and not at [entry + entry*distance/100], which is 65325. *)
Lemma calculate_sign_convention_counterexample :
  exists lv,
    Binary64.calculate demo_assets64 (py "LONG") (py "BTCUSD") (py "M1")
      65000%float = Returned lv /\
    Binary64.tp1 lv = 65324.99999999999%float /\
    (65000 + 65000 * 0.5 / 100 = 65325)%float /\
    (Binary64.tp1 lv =? 65000 + 65000 * 0.5 / 100)%float = false /\
    (Binary64.tp1 lv =? 65000 + 65000 * (0.5 / 100))%float = false.
Proof.
  eexists. split; [reflexivity|]. vm_compute. repeat split.
Qed.

(** C3. For a rule row with non-negative distances, the stop distance
    being a number, [calculate] returns (so no division error is
    raised), and its risk/reward ratio is
    [round(((tp1 + tp2 + tp3) / 3) / sl, 2)] when [sl > 0], exactly [0]
    when [sl == 0], and never negative.  The operations are the
    binary64 ones. *)
Theorem calculate_risk_reward assets d a tf p r :
  lookup_rule64 assets a tf = Some r ->
  (0 <=? Binary64.rule_tp1 r)%float = true ->
  (0 <=? Binary64.rule_tp2 r)%float = true ->
  (0 <=? Binary64.rule_tp3 r)%float = true ->
  (0 <=? Binary64.rule_sl r)%float = true ->
  is_number (Binary64.rule_sl r) = true ->
  exists lv,
    Binary64.calculate assets d a tf p = Returned lv /\
    Binary64.calculate assets d a tf p <> Raised ZeroDivisionError /\
    ((0 <? Binary64.rule_sl r)%float = true ->
     Binary64.rr_ratio lv =
       Binary64.py_round2
         (((Binary64.rule_tp1 r + Binary64.rule_tp2 r
            + Binary64.rule_tp3 r) / 3) / Binary64.rule_sl r)%float) /\
    ((Binary64.rule_sl r =? 0)%float = true ->
     Binary64.rr_ratio lv = 0%float) /\
    (0 <=? Binary64.rr_ratio lv)%float = true.
Proof.
  intros Hr H1 H2 H3 Hs Hn.
  destruct (calculate64_found assets d a tf p r Hr) as (lv & Hc & _ & _ & Hrr).
  exists lv. split; [exact Hc|]. split; [rewrite Hc; discriminate|].
  rewrite Hrr. destruct (0 <? Binary64.rule_sl r)%float eqn:Hpos.
  - split; [reflexivity|]. split.
    + intros E. apply eqb_0_not_above in E. congruence.
    + apply py_round2_sign.
      apply div_nonneg; [|exact Hpos|exact Hn].
      apply div_nonneg; [|reflexivity|reflexivity].
      apply add_nonneg; [apply add_nonneg|]; assumption.
  - split; [discriminate|]. split; reflexivity.
Qed.

(** The row XAUUSD/M15 has take-profits 9, 9, 9 and stop 40: the ratio
    is [round(0.225, 2)], and the binary64 number written [0.225] lies
    above the tie. *)
Lemma calculate_risk_reward_witness :
  exists lv,
    Binary64.calculate demo_assets64 (py "LONG") (py "XAUUSD") (py "M15")
      2350%float = Returned lv /\
    Binary64.rr_ratio lv = 0.23%float.
Proof.
  destruct (calculate_risk_reward demo_assets64 (py "LONG") (py "XAUUSD")
              (py "M15") 2350%float (Binary64.mkRule 9 9 9 40 None) eq_refl)
    as (lv & Hc & _ & Hpos & _); try reflexivity.
  exists lv. split; [exact Hc|].
  rewrite Hpos by reflexivity. vm_compute. reflexivity.
Defined.

(** [round(x, 2)] where the binary64 quotient and the exact one fall
    on different sides of a tie, on a negative number that rounds to
    zero, and on an infinity. *)
Example py_round2_samples :
  Binary64.py_round2 (27 / 3 / 40)%float = 0.23%float /\
  Binary64.py_round2 (9 / 3 / 200)%float = 0.01%float /\
  Binary64.py_round2 2.675%float = 2.67%float /\
  Binary64.py_round2 (6.5 / 3 / 1.5)%float = 1.44%float /\
  Binary64.py_round2 (-0.001)%float = (-0)%float /\
  Binary64.py_round2 infinity = infinity.
Proof. vm_compute. repeat split. Qed.

Open Scope Q_scope.

Section LevelOrder.
Variables (k x y : Q).
Hypothesis (Hk : 0 < k) (Hxy : x <= y).





End LevelOrder.



(** C10. When the rule row has no unit, or a unit string other than
    ["pips"] and ["points"], [calculate] returns normally, the levels
    are those of the percentage formula, and the unit it reports is
    ["%"] for an absent unit and the row's own string otherwise. *)
Theorem calculate_unit_fallback cfg d a tf p r :
  lookup_rule cfg a tf = Some r ->
  (forall u, rule_unit r = Some u -> u <> py "pips" /\ u <> py "points") ->
  exists lv,
    Calculator.calculate cfg d a tf p = Returned lv /\
    (Calculator.tp1 lv, Calculator.tp2 lv, Calculator.tp3 lv, Calculator.sl lv) =
      Calculator._calc_percentage d p
        (rule_tp1 r) (rule_tp2 r) (rule_tp3 r) (rule_sl r) /\
    Calculator.unit lv =
      match rule_unit r with Some u => u | None => py "%" end.
Proof.
  intros Hr Hu.
  destruct (calculate_found cfg d a tf p r Hr) as (lv & Hc & Hunit & Hl & _).
  exists lv. split; [exact Hc|]. split; [|exact Hunit].
  rewrite Hl, Hunit. unfold unit_kind_of.
  destruct (rule_unit r) as [u|].
  - destruct (Hu u eq_refl) as [Hpips Hpoints].
    apply str_eqb_neq in Hpips, Hpoints. rewrite Hpips, Hpoints. reflexivity.
  - reflexivity.
Qed.

Lemma calculate_unit_fallback_witness :
  exists lv,
    Calculator.calculate odd_unit_config (py "LONG") (py "BTCUSD") (py "M5") 100
      = Returned lv /\
    Calculator.unit lv = py "furlongs" /\
    Calculator.tp1 lv == 101 /\ Calculator.sl lv == 98.
Proof.
  destruct (calculate_unit_fallback odd_unit_config (py "LONG") (py "BTCUSD")
              (py "M5") 100 (mkRule 1 2 3 2 (Some (py "furlongs"))) eq_refl)
    as (lv & Hc & Hl & Hu).
  { intros u [= <-]. split; discriminate. }
  exists lv. split; [exact Hc|]. split; [exact Hu|].
  injection Hl as -> _ _ ->. vm_compute. split; reflexivity.
Defined.

(** C2, as the code has it.  For a pair with no rule row [calculate]
    raises and returns nothing: [KeyError] naming the asset when the
    table has no such asset, [KeyError] naming the timeframe when the
    asset's object has no such key, [AttributeError] when the key holds
    the alias list. *)
Theorem calculate_missing_rule_raises cfg d a tf p :
  lookup_rule cfg a tf = None ->
  Calculator.calculate cfg d a tf p =
    Raised match dict_get a (cfg_assets cfg) with
           | None => KeyError a
           | Some obj =>
               match asset_get tf obj with
               | None => KeyError tf
               | Some _ => AttributeError
               end
           end.
Proof.
  unfold lookup_rule, Calculator.calculate, dict_getitem, asset_getitem.
  destruct (dict_get a (cfg_assets cfg)) as [obj|]; [|reflexivity].
  cbn [bind].
  destruct (asset_get tf obj) as [[l|r]|]; [reflexivity|discriminate|reflexivity].
Qed.

Lemma calculate_missing_rule_raises_witness :
  Calculator.calculate demo_config (py "SHORT") (py "DOGEUSD") (py "M5") 1
    = Raised (KeyError (py "DOGEUSD")).
Proof.
  exact (calculate_missing_rule_raises demo_config (py "SHORT") (py "DOGEUSD")
           (py "M5") 1 eq_refl).
Defined.

(** C2 fails as stated: for BTCUSD/M99, absent from the table,
    [calculate] raises [KeyError] instead of returning an error value. *)
Lemma calculate_missing_rule_counterexample :
  lookup_rule demo_config (py "BTCUSD") (py "M99") = None /\
  Calculator.calculate demo_config (py "LONG") (py "BTCUSD") (py "M99") 65000
    = Raised (KeyError (py "M99")) /\
  ~ exists v,
      Calculator.calculate demo_config (py "LONG") (py "BTCUSD") (py "M99") 65000
        = Returned v.
Proof.
  split; [reflexivity|]. split; [reflexivity|].
  intros [v Hv]. discriminate Hv.
Qed.

Close Scope Q_scope.

(** ** Dictionaries *)

Lemma dict_get_set {V} (k k' : pystr) (v : V) (d : dict V) :
  dict_get k (dict_set k' v d) =
    if str_eqb k k' then Some v else dict_get k d.
Proof.
  induction d as [|[k0 v0] d IH]; cbn [dict_set dict_get]; [reflexivity|].
  destruct (str_eqb k' k0) eqn:E0; cbn [dict_get].
  - apply str_eqb_eq in E0; subst k0.
    destruct (str_eqb k k'); reflexivity.
  - rewrite IH.
    destruct (str_eqb k k0) eqn:E1, (str_eqb k k') eqn:E2; try reflexivity.
    apply str_eqb_eq in E1, E2. subst. rewrite str_eqb_refl in E0. discriminate.
Qed.

Lemma dict_get_app {V} (k : pystr) (d1 d2 : dict V) :
  dict_get k (d1 ++ d2) =
    match dict_get k d1 with
    | Some v => Some v
    | None => dict_get k d2
    end.
Proof.
  induction d1 as [|[k0 v0] d1 IH]; cbn [app dict_get]; [reflexivity|].
  destruct (str_eqb k k0); [reflexivity | exact IH].
Qed.

Lemma dict_get_In {V} (k : pystr) (v : V) (d : dict V) :
  dict_get k d = Some v -> In (k, v) d.
Proof.
  induction d as [|[k0 v0] d IH]; cbn [dict_get]; [discriminate|].
  destruct (str_eqb k k0) eqn:E.
  - apply str_eqb_eq in E. intros [= ->]. left; congruence.
  - intros H; right; auto.
Qed.

Lemma dict_get_key {V} (k : pystr) (d : dict V) :
  In k (dict_keys d) -> exists v, dict_get k d = Some v.
Proof.
  induction d as [|[k0 v0] d IH]; cbn; [tauto|].
  intros [->|H].
  - rewrite str_eqb_refl. eauto.
  - destruct (str_eqb k k0); eauto.
Qed.

Lemma apply_writes_app ws1 ws2 t :
  apply_writes (ws1 ++ ws2) t = apply_writes ws2 (apply_writes ws1 t).
Proof. apply fold_left_app. Qed.

Lemma dict_get_apply_writes k ws t :
  dict_get k (apply_writes ws t) =
    match dict_get k (rev ws) with
    | Some v => Some v
    | None => dict_get k t
    end.
Proof.
  revert t; induction ws as [|[k0 v0] ws IH]; intros t; [reflexivity|].
  cbn [apply_writes fold_left fst snd rev].
  fold (apply_writes ws (dict_set k0 v0 t)).
  rewrite IH, dict_get_app, dict_get_set. cbn [dict_get].
  destruct (dict_get k (rev ws)); [reflexivity|].
  destruct (str_eqb k k0); reflexivity.
Qed.

(** ** The lookup tables *)

Section LookupTables.
Context {U : UnicodeData}.

Lemma set_aliases_writes c aliases t :
  Parser.set_aliases c aliases t =
    apply_writes (map (fun alias => (upper alias, c)) aliases) t.
Proof.
  revert t; induction aliases as [|x l IH]; intros t; [reflexivity|].
  cbn. apply IH.
Qed.

Lemma build_direction_lookup_writes cfg :
  Parser.build_direction_lookup cfg = apply_writes (direction_writes cfg) [].
Proof.
  unfold Parser.build_direction_lookup, direction_writes.
  generalize (@nil (pystr * pystr)).
  induction (cfg_directions cfg) as [|[c al] l IH]; intros t; [reflexivity|].
  cbn [fold_left flat_map]. rewrite IH, apply_writes_app, set_aliases_writes.
  reflexivity.
Qed.

Lemma build_asset_lookup_writes cfg :
  Parser.build_asset_lookup cfg = apply_writes (asset_writes cfg) [].
Proof.
  unfold Parser.build_asset_lookup, asset_writes.
  generalize (@nil (pystr * pystr)) at 1 3.
  induction (cfg_assets cfg) as [|[c data] l IH]; intros t; [reflexivity|].
  cbn [fold_left flat_map]. rewrite IH, apply_writes_app.
  f_equal. destruct (entry_aliases data); [|reflexivity].
  rewrite set_aliases_writes. reflexivity.
Qed.

Lemma build_tf_lookup_writes cfg :
  Parser.build_tf_lookup cfg = apply_writes (tf_writes cfg) [].
Proof.
  unfold Parser.build_tf_lookup, tf_writes.
  generalize (@nil (pystr * pystr)).
  induction (cfg_tf_aliases cfg) as [|[alias tf] l IH]; intros t;
    [reflexivity|].
  cbn [fold_left map]. rewrite IH. reflexivity.
Qed.

(** C5, as the code has it.  Loading validates nothing: every
    configuration loads, in the parser and in the calculator; the
    configuration is kept as it is, distances and unit strings included;
    and in each lookup table a key resolves to the canonical value
    written last under it. *)
Theorem load_accepts_every_config cfg :
  Calculator.init cfg = Returned cfg /\
  exists self,
    Parser.init cfg = Returned self /\
    Parser.config self = cfg /\
    (forall k, dict_get k (Parser.direction_lookup self) =
               last_write k (direction_writes cfg)) /\
    (forall k, dict_get k (Parser.asset_lookup self) =
               last_write k (asset_writes cfg)) /\
    (forall k, dict_get k (Parser.tf_lookup self) =
               last_write k (tf_writes cfg)).
Proof.
  split; [reflexivity|].
  exists (Parser._build_lookup_tables cfg).
  split; [reflexivity|]. split; [reflexivity|].
  cbn [Parser._build_lookup_tables Parser.direction_lookup
       Parser.asset_lookup Parser.tf_lookup].
  rewrite build_direction_lookup_writes, build_asset_lookup_writes,
    build_tf_lookup_writes.
  unfold last_write.
  repeat split; intros k; rewrite dict_get_apply_writes;
    destruct (dict_get k (rev _)); reflexivity.
Qed.

End LookupTables.

(** C5 fails as stated: a configuration with a reused alias, a negative
    distance and an unknown unit loads, and [parse] and [calculate] then
    work from it. *)
Lemma load_rejects_counterexample :
  @spec_invalid ascii_tables bad_config = true /\
  reused_alias (@asset_writes ascii_tables bad_config) = true /\
  existsb has_negative_distance (all_rules bad_config) = true /\
  existsb has_unknown_unit (all_rules bad_config) = true /\
  Calculator.init bad_config = Returned bad_config /\
  (exists self,
     @Parser.init ascii_tables bad_config = Returned self /\
     dict_get (py "GOLD") (Parser.asset_lookup self) = Some (py "PAXGUSD") /\
     exists s,
       @Parser.parse ascii_tables self 0%Z (py "LONG GOLD M5")
         = Returned (Some s, None) /\
       Parser.asset s = py "PAXGUSD") /\
  (exists lv,
     Calculator.calculate bad_config (py "LONG") (py "XAUUSD") (py "M5") 100%Q
       = Returned lv /\
     Calculator.sl_distance lv = (-1)%Q) /\
  (exists lv,
     Calculator.calculate bad_config (py "LONG") (py "PAXGUSD") (py "M5") 100%Q
       = Returned lv /\
     Calculator.unit lv = py "furlongs").
Proof.
  repeat split; try reflexivity.
  - eexists; split; [reflexivity|]. split; [reflexivity|].
    eexists; split; reflexivity.
  - eexists; split; reflexivity.
  - eexists; split; reflexivity.
Qed.

(** ** Loops that return at the first hit *)

Lemma first_hit_None {X Y} (f : X -> option Y) l :
  Parser.first_hit f l = None <-> Forall (fun x => f x = None) l.
Proof.
  induction l as [|x l IH]; cbn [Parser.first_hit].
  - split; auto.
  - destruct (f x) eqn:E.
    + split; [discriminate | intros H; inversion H; congruence].
    + rewrite IH. split; [auto | intros H; inversion H; auto].
Qed.

Lemma first_hit_Some {X Y} (f : X -> option Y) l y :
  Parser.first_hit f l = Some y ->
  exists l1 x l2,
    l = l1 ++ x :: l2 /\ f x = Some y /\ Forall (fun z => f z = None) l1.
Proof.
  induction l as [|x l IH]; cbn [Parser.first_hit]; [discriminate|].
  destruct (f x) eqn:E.
  - intros [= ->]. exists [], x, l. auto.
  - intros H. destruct (IH H) as (l1 & x' & l2 & -> & Hx & Hl1).
    exists (x :: l1), x', l2. auto.
Qed.

Lemma first_hit_found {X Y} (f : X -> option Y) l1 x l2 y :
  Forall (fun z => f z = None) l1 -> f x = Some y ->
  Parser.first_hit f (l1 ++ x :: l2) = Some y.
Proof.
  intros Hl1 Hx. induction Hl1 as [|z l1 Hz _ IH];
    cbn [app Parser.first_hit].
  - rewrite Hx. reflexivity.
  - rewrite Hz. exact IH.
Qed.

(** ** Sorting by length, longest first *)

Create HintDb sorting.
#[local] Hint Constructors StronglySorted Forall : sorting.
#[local] Hint Unfold at_least_as_long : sorting.

Section SortedByLength.

Lemma insert_by_len_perm x l : Permutation (x :: l) (insert_by_len x l).
Proof.
  induction l as [|y l IH]; cbn [insert_by_len]; [reflexivity|].
  destruct (length x <? length y)%nat; [|reflexivity].
  rewrite perm_swap. apply perm_skip, IH.
Qed.

Lemma sorted_len_desc_perm l : Permutation l (sorted_len_desc l).
Proof.
  induction l as [|x l IH]; cbn [sorted_len_desc]; [reflexivity|].
  rewrite <- insert_by_len_perm. apply perm_skip, IH.
Qed.

Lemma insert_by_len_sorted x l :
  StronglySorted at_least_as_long l ->
  StronglySorted at_least_as_long (insert_by_len x l).
Proof.
  induction 1 as [|y l Hl IH Hy]; cbn [insert_by_len]; auto with sorting.
  destruct (length x <? length y)%nat eqn:E.
  - apply Nat.ltb_lt in E. constructor; [exact IH|].
    rewrite <- insert_by_len_perm. constructor; [|exact Hy].
    unfold at_least_as_long; lia.
  - apply Nat.ltb_ge in E. constructor; [auto with sorting|].
    constructor; [exact E|].
    apply Forall_impl with (2 := Hy). unfold at_least_as_long; lia.
Qed.

Lemma sorted_len_desc_sorted l :
  StronglySorted at_least_as_long (sorted_len_desc l).
Proof.
  induction l; cbn [sorted_len_desc];
    auto using insert_by_len_sorted with sorting.
Qed.

Lemma sorted_tail_shorter l1 x l2 :
  StronglySorted at_least_as_long (l1 ++ x :: l2) ->
  Forall (at_least_as_long x) l2.
Proof.
  induction l1 as [|y l1 IH]; cbn [app]; intros H; inversion H; subst; auto.
Qed.

End SortedByLength.

(** ** Asset extraction *)

Section AssetExtraction.
Context {U : UnicodeData}.
Variable self : Parser.MessageParser.

(** C7, as the code has it.  When no token of the message is an alias
    and the message contains an alias [longer], the substring pass
    resolves the asset owning [longer], provided every alias at least as
    long that the message also contains belongs to that same asset;
    shorter aliases, substrings of [longer] or not, are never preferred.
    A signal [parse] returns then carries that asset. *)
Theorem extract_asset_longest_first message longer owner :
  exact_token_match self message = None ->
  dict_get longer (Parser.asset_lookup self) = Some owner ->
  contains longer message = true ->
  (forall alias a,
     dict_get alias (Parser.asset_lookup self) = Some a ->
     contains alias message = true ->
     (length longer <= length alias)%nat ->
     a = owner) ->
  Parser._extract_asset self message = Some owner /\
  (forall now raw s e,
     message = upper (strip raw) ->
     Parser.parse self now raw = Returned (Some s, e) ->
     Parser.asset s = owner).
Proof.
  intros Hexact Hown Hin Hothers.
  assert (Hres : Parser._extract_asset self message = Some owner).
  { unfold Parser._extract_asset. unfold exact_token_match in Hexact.
    rewrite Hexact.
    set (f := fun alias : pystr =>
                if contains alias message
                then dict_get alias (Parser.asset_lookup self) else None).
    set (keys := sorted_len_desc (dict_keys (Parser.asset_lookup self))).
    assert (HfL : f longer = Some owner) by (unfold f; rewrite Hin; exact Hown).
    assert (HLkeys : In longer keys).
    { apply (Permutation_in _ (sorted_len_desc_perm _)).
      apply dict_get_In in Hown. apply (in_map fst) in Hown. exact Hown. }
    destruct (Parser.first_hit f keys) as [a|] eqn:Hhit.
    - destruct (first_hit_Some _ _ _ Hhit) as (l1 & x & l2 & Hkeys & Hx & Hl1).
      f_equal. unfold f in Hx.
      destruct (contains x message) eqn:Hxin; [|discriminate].
      apply (Hothers x a Hx Hxin).
      rewrite Hkeys in HLkeys. apply in_app_or in HLkeys.
      destruct HLkeys as [HL|[->|HL]]; [| lia |].
      + rewrite Forall_forall in Hl1. specialize (Hl1 _ HL). congruence.
      + pose proof (sorted_len_desc_sorted
                      (dict_keys (Parser.asset_lookup self))) as Hs.
        fold keys in Hs. rewrite Hkeys in Hs.
        apply sorted_tail_shorter in Hs. rewrite Forall_forall in Hs.
        exact (Hs _ HL).
    - apply first_hit_None in Hhit. rewrite Forall_forall in Hhit.
      specialize (Hhit _ HLkeys). congruence. }
  split; [exact Hres|].
  intros now raw s e -> Hparse. unfold Parser.parse in Hparse.
  rewrite Hres in Hparse.
  destruct (Parser._extract_direction self (upper (strip raw))) as [[|? ?]|];
    try discriminate.
  destruct owner as [|o1 o2]; [discriminate|].
  destruct (Parser._extract_timeframe self (upper (strip raw))) as [[|? ?]|];
    try discriminate.
  destruct (dict_getitem _ _); cbn [bind] in Hparse; [|discriminate].
  destruct (negb _); [discriminate|].
  destruct (Parser._extract_price _); cbn [bind] in Hparse; [|discriminate].
  injection Hparse as <- _. reflexivity.
Qed.

End AssetExtraction.

Lemma extract_asset_longest_first_witness :
  @Parser._extract_asset ascii_tables demo_parser (py "LONG XEURUSDX M15")
    = Some (py "EURUSD").
Proof.
  refine (proj1 (@extract_asset_longest_first ascii_tables demo_parser
                   (py "LONG XEURUSDX M15") (py "EURUSD") (py "EURUSD")
                   eq_refl eq_refl eq_refl _)).
  intros alias a Hget Hin Hlen.
  apply dict_get_In in Hget. vm_compute in Hget.
  repeat (destruct Hget as [Hget|Hget];
          [injection Hget as <- <-; try reflexivity;
           first [discriminate Hin | vm_compute in Hlen; lia]|]).
  destruct Hget.
Defined.

(** C7 fails as stated: EUR is a proper substring of the alias EURUSD,
    no token of the message is an alias and the message contains
    EURUSD, yet the asset resolved is BTCUSD, whose alias BITCOIN is
    longer and is in the message too. *)
Lemma extract_asset_longest_first_counterexample :
  let message := py "LONG XEURUSDX BITCOINS M5" in
  dict_get (py "EUR") (Parser.asset_lookup demo_parser) = Some (py "EURUSD") /\
  dict_get (py "EURUSD") (Parser.asset_lookup demo_parser) = Some (py "EURUSD") /\
  contains (py "EUR") (py "EURUSD") = true /\
  @exact_token_match ascii_tables demo_parser message = None /\
  contains (py "EURUSD") message = true /\
  @Parser._extract_asset ascii_tables demo_parser message = Some (py "BTCUSD") /\
  exists s,
    @Parser.parse ascii_tables demo_parser 0%Z message = Returned (Some s, None) /\
    Parser.asset s = py "BTCUSD".
Proof.
  cbv zeta. repeat split; try reflexivity.
  eexists; split; reflexivity.
Qed.

(** ** Substrings *)

Section Substrings.
Context {U : UnicodeData}.





End Substrings.

(** ** The regular expressions *)

Section Regex.
Context {U : UnicodeData}.

(** A greedy repetition consumes a run of characters of its class. *)
Lemma rep_match_run {A} p least prev s (k : option char -> pystr -> option A) r :
  rep_match p least prev s k = Some r ->
  exists run rest prev',
    s = run ++ rest /\ Forall (fun c => p c = true) run /\
    k prev' rest = Some r.
Proof.
  revert least prev; induction s as [|c s IH]; intros least prev;
    cbn [rep_match].
  - destruct least; [|discriminate].
    intros H. exists [], [], prev. auto.
  - assert (Hstop : match least with O => k prev (c :: s) | S _ => None end
                    = Some r ->
                    exists run rest prev',
                      c :: s = run ++ rest /\
                      Forall (fun c => p c = true) run /\
                      k prev' rest = Some r).
    { destruct least; [|discriminate].
      intros H. exists [], (c :: s), prev. auto. }
    destruct (p c) eqn:Hc; [|exact Hstop].
    destruct (rep_match p (pred least) (Some c) s k) as [r'|] eqn:E;
      [|exact Hstop].
    intros [= ->]. destruct (IH _ _ E) as (run & rest & prev' & -> & Hrun & Hk).
    exists (c :: run), rest, prev'. auto.
Qed.

(** The literal the price pattern captures is made of digits, dots and
    commas; without its commas it is in the domain of
    [float_of_literal]. *)
Lemma price_literal_chars message literal :
  re_search Parser.price_pattern message = Some literal ->
  Forall (fun c => Parser.price_char c = true) literal.
Proof.
  unfold re_search. generalize (@None char).
  induction message as [|c s IH]; intros prev; cbn [search_from].
  - cbn. discriminate.
  - destruct (match_here Parser.price_pattern prev (c :: s))
      as [[g n]|] eqn:E.
    + intros [= <-]. unfold match_here in E.
      cbn [Parser.price_pattern pat_before pat_group pat_after re_match] in E.
      destruct (64 =? c)%N; [|discriminate].
      apply rep_match_run in E. destruct E as (_ & s1 & p1 & _ & _ & E).
      apply rep_match_run in E. destruct E as (run & rest & _ & -> & Hrun & E).
      injection E as <- _.
      rewrite length_app, Nat.add_sub, firstn_app, Nat.sub_diag, firstn_all.
      cbn [firstn]. rewrite app_nil_r. exact Hrun.
    + apply IH.
Qed.

End Regex.

Example tf_pattern_findall :
  @re_findall ascii_tables (@Parser.tf_pattern ascii_tables)
    (py "LONG BTCUSD M99 5MIN 15 H4x 5MI 5MINS m5 @12,3")
  = [py "M99"; py "5MIN"; py "15"; py "5MI"; py "m5"; py "12"; py "3"].
Proof. reflexivity. Qed.

Example price_pattern_search :
  @re_search ascii_tables (@Parser.price_pattern ascii_tables)
    (py "LONG BTCUSD M5 @  12,3.4.")
  = Some (py "12,3.4.").
Proof. reflexivity. Qed.

(** ** [parse] *)

Section Parse.
Context {U : UnicodeData}.
Variable self : Parser.MessageParser.

Lemma extract_asset_in_lookup message a :
  Parser._extract_asset self message = Some a ->
  exists k, dict_get k (Parser.asset_lookup self) = Some a.
Proof.
  unfold Parser._extract_asset.
  destruct (Parser.first_hit _ (split _)) as [a'|] eqn:E.
  - intros [= ->]. apply first_hit_Some in E.
    destruct E as (_ & x & _ & _ & Hx & _). eauto.
  - intros H. apply first_hit_Some in H.
    destruct H as (_ & x & _ & _ & Hx & _).
    destruct (contains x message); [eauto | discriminate].
Qed.

Lemma float_of_literal_raises s e :
  float_of_literal s = Raised e -> e = ValueError.
Proof.
  unfold float_of_literal. destruct (split_at_dot s) as [i rest].
  destruct (i ++ _); [congruence|].
  destruct (digits_value _ _); congruence.
Qed.

Lemma extract_price_returns message :
  exists price, Parser._extract_price message = Returned price.
Proof.
  unfold Parser._extract_price.
  destruct (re_search _ _) as [g|]; [|eauto].
  destruct (float_of_literal _) as [q|e] eqn:E; [eauto|].
  apply float_of_literal_raises in E. subst e. eauto.
Qed.



End Parse.

(** A parser built from a configuration resolves assets of that
    configuration only, so [parse] returns on every message: its
    failures are values, never exceptions. *)
Section BuiltParser.
Context {U : UnicodeData}.
Variable cfg : Config.

Lemma asset_lookup_values k a :
  dict_get k (Parser.build_asset_lookup cfg) = Some a ->
  In a (dict_keys (cfg_assets cfg)).
Proof.
  rewrite build_asset_lookup_writes, dict_get_apply_writes.
  destruct (dict_get k (rev (asset_writes cfg))) as [v|] eqn:E;
    [|discriminate].
  intros [= ->]. apply dict_get_In, in_rev in E.
  unfold asset_writes in E. apply in_flat_map in E.
  destruct E as ([asset data] & Hin & [E|E]).
  - injection E as _ <-. apply (in_map fst) in Hin. exact Hin.
  - destruct (entry_aliases data); [|destruct E].
    apply in_map_iff in E. destruct E as (x & [= _ <-] & _).
    apply (in_map fst) in Hin. exact Hin.
Qed.

Lemma parse_returns now raw :
  exists r, Parser.parse (Parser._build_lookup_tables cfg) now raw = Returned r.
Proof.
  unfold Parser.parse.
  destruct (Parser._extract_direction _ _) as [[|d0 d]|]; eauto.
  destruct (Parser._extract_asset _ _) as [[|a0 a]|] eqn:Ha; eauto.
  destruct (Parser._extract_timeframe _ _) as [[|t0 t]|]; eauto.
  apply extract_asset_in_lookup in Ha. destruct Ha as [k Hk].
  apply asset_lookup_values, dict_get_key in Hk. destruct Hk as [obj Hobj].
  unfold dict_getitem. cbn [Parser.config Parser._build_lookup_tables].
  rewrite Hobj. cbn [bind].
  destruct (negb _); eauto.
  destruct (extract_price_returns (upper (strip raw))) as [price Hp].
  rewrite Hp. cbn [bind]. eauto.
Qed.

End BuiltParser.





(** ** Direction extraction *)

Section DirectionExtraction.
Context {U : UnicodeData}.
Variable self : Parser.MessageParser.

(** C9, as the code has it.  [_extract_direction] looks at the first
    three whitespace-delimited tokens only; from a token it keeps the
    word characters (alphanumerics and the underscore) and the two
    glyphs, dropping the rest; it returns a direction exactly when one
    of the three tokens, cleaned, is an alias, and then the canonical
    direction of the first such token; and when none of the three is,
    [parse] fails with the direction-not-found message, whatever the
    later tokens are. *)
Theorem extract_direction_first_three :
  (forall m1 m2,
     firstn 3 (split m1) = firstn 3 (split m2) ->
     Parser._extract_direction self m1 = Parser._extract_direction self m2) /\
  (forall word ch,
     In ch (Parser.clean_direction word) <->
     In ch word /\
     (is_alnum ch = true \/ ch = 95%N \/
      ch = Parser.green_circle \/ ch = Parser.red_circle)) /\
  (forall m d,
     Parser._extract_direction self m = Some d <->
     exists before word after,
       firstn 3 (split m) = before ++ word :: after /\
       dict_get (Parser.clean_direction word) (Parser.direction_lookup self)
         = Some d /\
       Forall (fun w =>
                 dict_get (Parser.clean_direction w)
                   (Parser.direction_lookup self) = None) before) /\
  (forall now raw,
     Forall (fun w =>
               dict_get (Parser.clean_direction w)
                 (Parser.direction_lookup self) = None)
       (firstn 3 (split (upper (strip raw)))) ->
     Parser.parse self now raw = Returned (None, Some Parser.msg_no_direction)).
Proof.
  split; [|split; [|split]].
  - intros m1 m2 H. unfold Parser._extract_direction. rewrite H. reflexivity.
  - intros word ch. unfold Parser.clean_direction, is_word.
    rewrite filter_In, !orb_true_iff, !N.eqb_eq. tauto.
  - intros m d. split.
    + intros H. apply first_hit_Some in H. exact H.
    + intros (before & word & after & E & Hw & Hb).
      unfold Parser._extract_direction. rewrite E.
      apply first_hit_found; assumption.
  - intros now raw H. apply first_hit_None in H.
    unfold Parser.parse, Parser._extract_direction. rewrite H. reflexivity.
Qed.

End DirectionExtraction.

(** C9 fails as stated: stripping the non-alphanumeric characters from
    the first token of [_LONG BTCUSD M5] leaves the alias LONG, but the
    code keeps the underscore, finds no alias and reports that the
    direction was not found. *)
Lemma extract_direction_counterexample :
  let message := py "_LONG BTCUSD M5" in
  @spec_extract_direction ascii_tables demo_parser message = Some (py "LONG") /\
  @Parser._extract_direction ascii_tables demo_parser message = None /\
  @Parser.parse ascii_tables demo_parser 0%Z message
    = Returned (None, Some Parser.msg_no_direction).
Proof. cbv zeta. repeat split; reflexivity. Qed.

Lemma extract_direction_first_three_witness :
  @Parser.parse ascii_tables demo_parser 0%Z (py "PLEASE GO NOW LONG BTCUSD M5")
    = Returned (None, Some Parser.msg_no_direction) /\
  @Parser._extract_direction ascii_tables demo_parser
    (py "PLEASE *SELL* BTCUSD M5") = Some (py "SHORT").
Proof.
  split.
  - apply (proj2 (proj2 (proj2
             (@extract_direction_first_three ascii_tables demo_parser)))).
    repeat constructor.
  - apply (proj1 (proj2 (proj2
             (@extract_direction_first_three ascii_tables demo_parser)))).
    exists [py "PLEASE"], (py "*SELL*"), [py "BTCUSD"].
    repeat constructor.
Defined.

(** ** The scenarios of the specification *)

Example scenario_parse_plain :
  @Parser.parse ascii_tables demo_parser 0%Z (py "LONG BTCUSD M5") =
    Returned (Some {| Parser.direction := py "LONG";
                      Parser.asset := py "BTCUSD";
                      Parser.timeframe := py "M5";
                      Parser.original_message := py "LONG BTCUSD M5";
                      Parser.timestamp := 0%Z;
                      Parser.entry_price := None |}, None).
Proof. reflexivity. Qed.

Example scenario_calculate :
  match Calculator.calculate demo_config (py "LONG") (py "BTCUSD") (py "M5")
          65000%Q with
  | Returned lv =>
      Qeq_bool (Calculator.tp1 lv) 65650%Q
      && Qeq_bool (Calculator.tp2 lv) 66300%Q
      && Qeq_bool (Calculator.tp3 lv) 67275%Q
      && Qeq_bool (Calculator.sl lv) 64025%Q
      && Qeq_bool (Calculator.rr_ratio lv) 1.44%Q
  | Raised _ => false
  end = true.
Proof. vm_compute. reflexivity. Qed.

(** The same scenario on binary64 numbers. *)
Example scenario_calculate64 :
  exists lv,
    Binary64.calculate demo_assets64 (py "LONG") (py "BTCUSD") (py "M5")
      65000%float = Returned lv /\
    Binary64.tp1 lv = 65650%float /\ Binary64.tp2 lv = 66300%float /\
    Binary64.tp3 lv = 67275%float /\ Binary64.sl lv = 64025%float /\
    Binary64.rr_ratio lv = 1.44%float /\
    Binary64.format_price (Binary64.tp3 lv) (py "BTCUSD") = py "67275.00".
Proof. eexists. split; [reflexivity|]. vm_compute. repeat split. Qed.

Example scenario_parse_price :
  exists s,
    @Parser.parse ascii_tables demo_parser 0%Z (py "buy bitcoin 5m @65,000.5")
      = Returned (Some s, None) /\
    Parser.direction s = py "LONG" /\ Parser.asset s = py "BTCUSD" /\
    Parser.timeframe s = py "M5" /\
    Parser.entry_price s = Some (inject_Z 650005 / inject_Z 10)%Q.
Proof. eexists. repeat split. Qed.

Example scenario_parse_glyph :
  exists s,
    @Parser.parse ascii_tables demo_parser 0%Z
      (Parser.red_circle :: py " eur 15")
      = Returned (Some s, None) /\
    Parser.direction s = py "SHORT" /\ Parser.asset s = py "EURUSD" /\
    Parser.timeframe s = py "M15" /\ Parser.entry_price s = None.
Proof. eexists. repeat split. Qed.

Example scenario_unknown_asset :
  @Parser.parse ascii_tables demo_parser 0%Z (py "LONG UNKNOWNCOIN M5") =
    Returned (None, Some (Parser.cross_mark ++
      py " Asset not recognized. Available: BTCUSD, EURUSD, US30")).
Proof. reflexivity. Qed.


(** * Further properties of the calculator *)

Open Scope Q_scope.

Section AroundEntry.
Variables (k t : Q).
Hypothesis (Hk : 0 < k) (Ht : 0 <= t).





End AroundEntry.



Section PercentOfEntry.
Variables (k t : Q).
Hypothesis (Hk : 0 < k).



End PercentOfEntry.



(** X5. [calculate] knows one direction by name: every direction string
    other than ["LONG"] (["BUY"], ["long"], the empty string) gets the
    SHORT levels. *)
Theorem calculate_not_long_is_short cfg d a tf p r :
  lookup_rule cfg a tf = Some r ->
  d <> py "LONG" ->
  exists lv short,
    Calculator.calculate cfg d a tf p = Returned lv /\
    Calculator.calculate cfg (py "SHORT") a tf p = Returned short /\
    Calculator.direction lv = d /\
    Calculator.tp1 lv = Calculator.tp1 short /\
    Calculator.tp2 lv = Calculator.tp2 short /\
    Calculator.tp3 lv = Calculator.tp3 short /\
    Calculator.sl lv = Calculator.sl short.
Proof.
  intros Hr Hd. apply str_eqb_neq in Hd.
  destruct (calculate_found cfg d a tf p r Hr) as (lv & Hc & Hu & Hl & _).
  destruct (calculate_found cfg (py "SHORT") a tf p r Hr)
    as (short & Hc' & Hu' & Hl' & _).
  exists lv, short. split; [exact Hc|]. split; [exact Hc'|].
  split.
  { unfold Calculator.calculate, dict_getitem, asset_getitem in Hc.
    unfold lookup_rule in Hr.
    destruct (dict_get a (cfg_assets cfg)) as [obj|]; [|discriminate].
    cbn [bind] in Hc.
    destruct (asset_get tf obj) as [[l|r']|]; try discriminate.
    cbn [bind] in Hc.
    destruct (if str_eqb _ (py "pips") then _ else _) as [[[x1 x2] x3] x4].
    destruct (if Qlt_le_dec 0 (rule_sl r') then _ else _);
      cbn [bind] in Hc; [|discriminate].
    injection Hc as <-. reflexivity. }
  rewrite Hu in Hl. rewrite Hu' in Hl'.
  unfold Calculator._calc_pips, Calculator._calc_points,
    Calculator._calc_percentage in Hl, Hl'.
  rewrite Hd in Hl. change (str_eqb (py "SHORT") (py "LONG")) with false in Hl'.
  rewrite <- Hl' in Hl. injection Hl as -> -> -> ->. auto.
Qed.

Lemma calculate_not_long_is_short_witness :
  exists lv short,
    Calculator.calculate demo_config (py "BUY") (py "BTCUSD") (py "M5") 65000
      = Returned lv /\
    Calculator.calculate demo_config (py "SHORT") (py "BTCUSD") (py "M5") 65000
      = Returned short /\
    Calculator.tp1 lv = Calculator.tp1 short /\ Calculator.tp1 lv < 65000.
Proof.
  destruct (calculate_not_long_is_short demo_config (py "BUY") (py "BTCUSD")
              (py "M5") 65000 (mkRule 1 2 3.5 1.5 (Some (py "%"))) eq_refl)
    as (lv & short & Hc & Hs & _ & H1 & _); [discriminate|].
  exists lv, short. split; [exact Hc|]. split; [exact Hs|]. split; [exact H1|].
  injection Hc as <-. reflexivity.
Defined.

Close Scope Q_scope.

(** * Formatting of prices *)

Lemma chars_of_uint_digits u : Forall is_ascii_digit (chars_of_uint u).
Proof.
  induction u; cbn [chars_of_uint]; constructor; auto;
    unfold is_ascii_digit; lia.
Qed.

Lemma fixed_digits_digits w n : Forall is_ascii_digit (fixed_digits w n).
Proof.
  revert n; induction w as [|w IH]; intros n; cbn [fixed_digits];
    [constructor|].
  apply Forall_app. split; [apply IH|].
  constructor; [|constructor].
  assert (H : (n mod 10 < 10)%N) by (apply N.mod_upper_bound; discriminate).
  unfold is_ascii_digit. generalize dependent (n mod 10)%N. intros. lia.
Qed.

Lemma fixed_digits_length w n : length (fixed_digits w n) = w.
Proof.
  revert n; induction w as [|w IH]; intros n; cbn [fixed_digits];
    [reflexivity|].
  rewrite length_app, IH. cbn. lia.
Qed.

Lemma split_at_dot_first whole frac :
  Forall (fun c => c <> 46%N) whole ->
  split_at_dot (whole ++ 46%N :: frac) = (whole, Some frac).
Proof.
  induction 1 as [|c whole Hc _ IH]; cbn [app split_at_dot].
  - reflexivity.
  - apply N.eqb_neq in Hc. rewrite Hc, IH. reflexivity.
Qed.

(** A number formatted with at least one decimal place is a sign and
    digits, one dot, and as many digits as places. *)
Lemma format_fixed_shape d value :
  exists whole frac,
    format_fixed (S d) value = whole ++ 46%N :: frac /\
    split_at_dot (format_fixed (S d) value) = (whole, Some frac) /\
    length frac = S d /\ Forall is_ascii_digit frac.
Proof.
  unfold format_fixed.
  set (unit := (10 ^ N.of_nat (S d))%N).
  set (scaled := Z.to_N _).
  set (sign := if Qlt_le_dec value 0 then [45%N] else []).
  exists (sign ++ decimal_digits (scaled / unit)),
         (fixed_digits (S d) (scaled mod unit)).
  rewrite app_assoc. split; [reflexivity|]. split; [|split].
  - apply split_at_dot_first. apply Forall_app. split.
    + unfold sign. destruct (Qlt_le_dec value 0); repeat constructor.
      discriminate.
    + apply Forall_impl with (2 := chars_of_uint_digits _).
      unfold is_ascii_digit. intros c Hc. lia.
  - apply fixed_digits_length.
  - apply fixed_digits_digits.
Qed.

Lemma format_fixed_places d1 d2 value :
  format_fixed (S d1) value = format_fixed (S d2) value -> d1 = d2.
Proof.
  intros E.
  destruct (format_fixed_shape d1 value) as (w1 & f1 & _ & H1 & L1 & _).
  destruct (format_fixed_shape d2 value) as (w2 & f2 & _ & H2 & L2 & _).
  rewrite E, H2 in H1. injection H1 as _ <-. lia.
Qed.

(** Decides the tests of [asset] against the literal asset names one
    after the other. *)
Ltac by_asset asset :=
  repeat match goal with
         | |- context [str_eqb asset ?k] =>
             let E := fresh "E" in
             destruct (str_eqb asset k) eqn:E;
             [ apply str_eqb_eq in E; subst asset;
               try reflexivity; try congruence | ]
         end.

Lemma no_dot_before_split whole frac :
  split_at_dot (whole ++ 46%N :: frac) = (whole, Some frac) ->
  Forall (fun c => c <> 46%N) whole.
Proof.
  induction whole as [|c w IH]; cbn [app split_at_dot]; [constructor|].
  destruct (c =? 46)%N eqn:Ec; [discriminate|].
  destruct (split_at_dot (w ++ 46%N :: frac)) as [x y] eqn:Es.
  intros [= -> ->]. constructor; [apply N.eqb_neq, Ec|].
  apply IH. reflexivity.
Qed.

(** A binary64 number formatted with at least one decimal place: a
    number gives a sign and digits, one dot, and as many digits as
    places; an infinity and a NaN give their names. *)
Lemma format_float_shape d value :
  is_number value = true ->
  exists whole frac,
    Binary64.format_float (S d) value = whole ++ 46%N :: frac /\
    Forall (fun c => c <> 46%N) whole /\
    length frac = S d /\ Forall is_ascii_digit frac.
Proof.
  unfold is_number, Binary64.format_float.
  destruct (Prim2SF value) as [s|s| |s m e]; try discriminate; intros _.
  - destruct (format_fixed_shape d 0) as (whole & frac & E & Hs & L & Hf).
    rewrite E in Hs. apply no_dot_before_split in Hs.
    exists ((if s then [45%N] else []) ++ whole), frac.
    rewrite E, app_assoc. split; [reflexivity|]. split; [|auto].
    apply Forall_app. split; [|exact Hs].
    destruct s; repeat constructor. discriminate.
  - destruct (format_fixed_shape d
                (if s then Qopp (Binary64.sf_value m e)
                 else Binary64.sf_value m e))
      as (whole & frac & E & Hs & L & Hf).
    exists whole, frac. split; [exact E|]. split; [|auto].
    rewrite E in Hs. apply no_dot_before_split in Hs. exact Hs.
Qed.

Lemma format_float_name d value :
  is_number value = false ->
  In (Binary64.format_float d value) [py "inf"; py "-inf"; py "nan"].
Proof.
  unfold is_number, Binary64.format_float.
  destruct (Prim2SF value) as [s|s| |s m e]; try discriminate; intros _.
  - destruct s; cbn; auto.
  - cbn; auto.
Qed.

Lemma format_float_places d1 d2 value :
  d1 <> d2 ->
  Binary64.format_float (S d1) value = Binary64.format_float (S d2) value
  <-> is_number value = false.
Proof.
  intros Hd. unfold is_number, Binary64.format_float.
  destruct (Prim2SF value) as [s|s| |s m e].
  - split; [|discriminate]. intros E.
    apply app_inv_head, format_fixed_places in E. contradiction.
  - split; reflexivity.
  - split; reflexivity.
  - split; [|discriminate]. intros E.
    apply format_fixed_places in E. contradiction.
Qed.

(** X7. For a price that is a number, [format_price] writes a
    fractional part: one dot followed by exactly as many digits as the
    asset's entry in the decimals table, two for an asset the table
    does not list.  For an infinity or a NaN it writes [inf], [-inf] or
    [nan]. *)
Theorem format_price_shape price asset :
  (is_number price = true ->
   exists whole frac,
     Binary64.format_price price asset = whole ++ 46%N :: frac /\
     Forall (fun c => c <> 46%N) whole /\
     Forall is_ascii_digit frac /\
     length frac = dict_get_default asset 2%nat Binary64.PRICE_DECIMALS /\
     (1 <= length frac <= 5)%nat) /\
  (is_number price = false ->
   In (Binary64.format_price price asset) [py "inf"; py "-inf"; py "nan"]).
Proof.
  unfold Binary64.format_price. split.
  - intros Hn.
    assert (Hdec : exists d,
              dict_get_default asset 2%nat Binary64.PRICE_DECIMALS = S d /\
              (d <= 4)%nat).
    { unfold dict_get_default, Binary64.PRICE_DECIMALS.
      cbn [dict_get]. by_asset asset; eexists; (split; [reflexivity | lia]). }
    destruct Hdec as (d & -> & Hd).
    destruct (format_float_shape d price Hn) as (whole & frac & E & Hw & L & Hf).
    exists whole, frac. repeat split; auto; lia.
  - apply format_float_name.
Qed.

Lemma format_price_shape_witness :
  (exists whole frac,
     Binary64.format_price 1.085%float (py "EURUSD") = whole ++ 46%N :: frac /\
     length frac = 5%nat) /\
  In (Binary64.format_price infinity (py "EURUSD"))
     [py "inf"; py "-inf"; py "nan"].
Proof.
  split.
  - destruct (proj1 (format_price_shape 1.085%float (py "EURUSD")) eq_refl)
      as (whole & frac & E & _ & _ & L & _).
    exists whole, frac. split; [exact E | exact L].
  - exact (proj2 (format_price_shape infinity (py "EURUSD")) eq_refl).
Defined.

(** X8. The calculator's [format_price] and the formatter's
    [_format_number] write the same text for every price of every
    asset but AUDUSD, USDCAD, USDCHF and SPX500; for those four they
    write the same text only for an infinity or a NaN, the formatter
    using five places (one for SPX500) where the calculator uses two. *)
Theorem format_price_vs_format_number asset :
  let differing := [py "AUDUSD"; py "USDCAD"; py "USDCHF"; py "SPX500"] in
  (~ In asset differing ->
   forall value,
     Binary64.format_price value asset = Formatter._format_number value asset) /\
  (In asset differing ->
   forall value,
     Binary64.format_price value asset = Formatter._format_number value asset
     <-> is_number value = false).
Proof.
  cbv zeta. split.
  - intros Hnot value.
    assert (H1 : asset <> py "AUDUSD") by (intros ->; apply Hnot; cbn; auto).
    assert (H2 : asset <> py "USDCAD") by (intros ->; apply Hnot; cbn; auto).
    assert (H3 : asset <> py "USDCHF") by (intros ->; apply Hnot; cbn; auto).
    assert (H4 : asset <> py "SPX500") by (intros ->; apply Hnot; cbn; auto 6).
    unfold Binary64.format_price, Formatter._format_number,
      dict_get_default, Binary64.PRICE_DECIMALS, Formatter.str_in.
    cbn [dict_get existsb]. by_asset asset. reflexivity.
  - intros Hin value.
    cbn [In] in Hin.
    destruct Hin as [<-|[<-|[<-|[<-|[]]]]].
    + exact (format_float_places 1 4 value ltac:(discriminate)).
    + exact (format_float_places 1 4 value ltac:(discriminate)).
    + exact (format_float_places 1 4 value ltac:(discriminate)).
    + exact (format_float_places 1 0 value ltac:(discriminate)).
Qed.

Lemma format_price_vs_format_number_witness :
  Binary64.format_price 39500.25%float (py "US30") = py "39500.2" /\
  Formatter._format_number 39500.25%float (py "US30") = py "39500.2" /\
  Binary64.format_price 0.66%float (py "AUDUSD") = py "0.66" /\
  Formatter._format_number 0.66%float (py "AUDUSD") = py "0.66000" /\
  Binary64.format_price infinity (py "AUDUSD")
    = Formatter._format_number infinity (py "AUDUSD").
Proof.
  pose proof (proj1 (format_price_vs_format_number (py "US30"))) as Hsame.
  pose proof (proj2 (format_price_vs_format_number (py "AUDUSD"))) as Hdiff.
  split; [reflexivity|]. split.
  - rewrite <- Hsame; [reflexivity|].
    cbn. intros [H|[H|[H|[H|[]]]]]; discriminate H.
  - split; [reflexivity|]. split; [reflexivity|].
    apply Hdiff; [cbn; auto | reflexivity].
Defined.

(** X9. The unit the formatter prints with the levels [calculate]
    returns is the unit [calculate] computed them with: the symbol is
    [" pips"] and the levels are those of [_calc_pips], or it is
    [" pts"] and they are those of [_calc_points], or it is ["%"] and
    they are those of [_calc_percentage], whatever the unit string of
    the rule row, unknown ones included. *)
Theorem unit_symbol_matches_calculation assets d a tf p r :
  lookup_rule64 assets a tf = Some r ->
  exists lv,
    Binary64.calculate assets d a tf p = Returned lv /\
    let symbol := Formatter._get_unit_symbol (Binary64.unit lv) in
    let levels :=
      (Binary64.tp1 lv, Binary64.tp2 lv, Binary64.tp3 lv, Binary64.sl lv) in
    (symbol = py " pips" /\
     levels = Binary64._calc_pips d p (pip_size64 a)
                (Binary64.rule_tp1 r) (Binary64.rule_tp2 r)
                (Binary64.rule_tp3 r) (Binary64.rule_sl r)) \/
    (symbol = py " pts" /\
     levels = Binary64._calc_points d p (point_value64 a)
                (Binary64.rule_tp1 r) (Binary64.rule_tp2 r)
                (Binary64.rule_tp3 r) (Binary64.rule_sl r)) \/
    (symbol = py "%" /\
     levels = Binary64._calc_percentage d p
                (Binary64.rule_tp1 r) (Binary64.rule_tp2 r)
                (Binary64.rule_tp3 r) (Binary64.rule_sl r)).
Proof.
  intros Hr.
  destruct (calculate64_found assets d a tf p r Hr) as (lv & Hc & Hu & Hl & _).
  exists lv. split; [exact Hc|]. cbv zeta. rewrite Hl, Hu.
  assert (Hs : forall unit,
    Formatter._get_unit_symbol unit =
      match unit_kind_of unit with
      | Percent => py "%"
      | Pips => py " pips"
      | Points => py " pts"
      end).
  { intros unit.
    unfold Formatter._get_unit_symbol, unit_kind_of, dict_get_default.
    cbn [dict_get]. by_asset unit. reflexivity. }
  rewrite Hs. destruct (unit_kind_of (unit_string64 r)); auto.
Qed.

Lemma unit_symbol_matches_calculation_witness :
  exists lv,
    Binary64.calculate demo_assets64 (py "LONG") (py "US30") (py "H1")
      39500%float = Returned lv /\
    Formatter._get_unit_symbol (Binary64.unit lv) = py " pts" /\
    Binary64.tp1 lv = 39550%float.
Proof.
  destruct (unit_symbol_matches_calculation demo_assets64 (py "LONG")
              (py "US30") (py "H1") 39500%float
              (Binary64.mkRule 50 100 150 75 (Some (py "points"))) eq_refl)
    as (lv & Hc & H).
  exists lv. split; [exact Hc|].
  injection Hc as <-. split; reflexivity.
Defined.

(** * Further properties of the parser *)

Section ParsedSignals.
Context {U : UnicodeData}.

Lemma extract_direction_in_lookup self message d :
  Parser._extract_direction self message = Some d ->
  exists k, dict_get k (Parser.direction_lookup self) = Some d.
Proof.
  unfold Parser._extract_direction. intros H.
  apply first_hit_Some in H. destruct H as (_ & x & _ & _ & Hx & _). eauto.
Qed.

Lemma extract_timeframe_in_lookup self message tf :
  Parser._extract_timeframe self message = Some tf ->
  exists k, dict_get k (Parser.tf_lookup self) = Some tf.
Proof.
  unfold Parser._extract_timeframe.
  destruct (Parser.first_hit _ (re_findall _ _)) as [tf'|] eqn:E.
  - intros [= ->]. apply first_hit_Some in E.
    destruct E as (_ & x & _ & _ & Hx & _). eauto.
  - intros H. apply first_hit_Some in H.
    destruct H as (_ & x & _ & _ & Hx & _). eauto.
Qed.

Lemma written_value k v writes :
  dict_get k (apply_writes writes []) = Some v -> In (k, v) writes.
Proof.
  rewrite dict_get_apply_writes.
  destruct (dict_get k (rev writes)) as [v'|] eqn:E; [|discriminate].
  intros [= ->]. apply dict_get_In, in_rev in E. exact E.
Qed.

Lemma direction_lookup_values cfg k d :
  dict_get k (Parser.build_direction_lookup cfg) = Some d ->
  In d (dict_keys (cfg_directions cfg)).
Proof.
  rewrite build_direction_lookup_writes. intros H.
  apply written_value in H. unfold direction_writes in H.
  apply in_flat_map in H. destruct H as ([c aliases] & Hin & H).
  apply in_map_iff in H. destruct H as (x & [= _ <-] & _).
  apply (in_map fst) in Hin. exact Hin.
Qed.

Lemma tf_lookup_values cfg k tf :
  dict_get k (Parser.build_tf_lookup cfg) = Some tf ->
  In tf (map snd (cfg_tf_aliases cfg)).
Proof.
  rewrite build_tf_lookup_writes. intros H.
  apply written_value in H. unfold tf_writes in H.
  apply in_map_iff in H. destruct H as ([alias tf'] & [= _ <-] & Hin).
  apply (in_map snd) in Hin. exact Hin.
Qed.

Lemma float_of_literal_nonneg s q : float_of_literal s = Returned q -> (0 <= q)%Q.
Proof.
  unfold float_of_literal. destruct (split_at_dot s) as [i rest].
  destruct (i ++ _); [discriminate|].
  destruct (digits_value _ _) as [n|]; [|discriminate].
  intros [= <-].
  apply Qle_shift_div_l.
  - change 0%Q with (inject_Z 0). rewrite <- Zlt_Qlt.
    apply Z.pow_pos_nonneg; lia.
  - rewrite Qmult_0_l. change 0%Q with (inject_Z 0). rewrite <- Zle_Qle. lia.
Qed.

Lemma extract_price_nonneg message q :
  Parser._extract_price message = Returned (Some q) -> (0 <= q)%Q.
Proof.
  unfold Parser._extract_price.
  destruct (re_search _ _); [|discriminate].
  destruct (float_of_literal _) as [q'|[]] eqn:E; try discriminate.
  intros [= <-]. exact (float_of_literal_nonneg _ _ E).
Qed.

(** What [parse] returns has one of two shapes, whatever the parser. *)
Lemma parse_shape self now raw s e :
  Parser.parse self now raw = Returned (s, e) ->
  (exists signal, s = Some signal /\ e = None) \/
  (s = None /\ exists c msg, e = Some (c :: msg)).
Proof.
  unfold Parser.parse.
  destruct (Parser._extract_direction _ _) as [[|? ?]|];
    try (intros [= <- <-]; right; split; [reflexivity|];
         eexists _, _; reflexivity).
  destruct (Parser._extract_asset _ _) as [[|? ?]|];
    try (intros [= <- <-]; right; split; [reflexivity|];
         eexists _, _; reflexivity).
  destruct (Parser._extract_timeframe _ _) as [[|? ?]|];
    try (intros [= <- <-]; right; split; [reflexivity|];
         eexists _, _; reflexivity).
  destruct (dict_getitem _ _); cbn [bind]; [|discriminate].
  destruct (negb _).
  - intros [= <- <-]. right. split; [reflexivity|]. eexists _, _; reflexivity.
  - destruct (Parser._extract_price _); cbn [bind]; [|discriminate].
    intros [= <- <-]. left. eauto.
Qed.

(** The fields of a signal [parse] returns. *)
Lemma parse_signal_fields self now raw signal e :
  Parser.parse self now raw = Returned (Some signal, e) ->
  let message := upper (strip raw) in
  Parser._extract_direction self message = Some (Parser.direction signal) /\
  Parser._extract_asset self message = Some (Parser.asset signal) /\
  Parser._extract_timeframe self message = Some (Parser.timeframe signal) /\
  Parser._extract_price message = Returned (Parser.entry_price signal) /\
  Parser.original_message signal = raw /\
  Parser.timestamp signal = now /\
  exists obj,
    dict_get (Parser.asset signal) (cfg_assets (Parser.config self)) = Some obj /\
    asset_contains (Parser.timeframe signal) obj = true.
Proof.
  unfold Parser.parse. cbv zeta.
  destruct (Parser._extract_direction _ _) as [[|? ?]|]; try discriminate.
  destruct (Parser._extract_asset _ _) as [[|? ?]|]; try discriminate.
  destruct (Parser._extract_timeframe _ _) as [[|? ?]|]; try discriminate.
  unfold dict_getitem.
  destruct (dict_get _ _) as [obj|] eqn:Hobj; cbn [bind]; [|discriminate].
  destruct (asset_contains _ obj) eqn:Hc; cbn [negb]; [|discriminate].
  destruct (Parser._extract_price _) as [price|] eqn:Hp; cbn [bind];
    [|discriminate].
  intros [= <- _]. cbn. repeat split; eauto.
Qed.

End ParsedSignals.

Section ParserGuarantees.
Context {U : UnicodeData}.
Variable cfg : Config.

Lemma built_parse_shape now raw :
  exists s e,
    Parser.parse (Parser._build_lookup_tables cfg) now raw = Returned (s, e) /\
    ((exists signal, s = Some signal /\ e = None) \/
     (s = None /\ exists c msg, e = Some (c :: msg))).
Proof.
  destruct (parse_returns cfg now raw) as [[s e] H].
  exists s, e. split; [exact H|]. exact (parse_shape _ _ _ _ _ H).
Qed.

(** X10. On a parser built from a configuration [parse] never raises,
    and what it returns is either a signal without error text or no
    signal with a non-empty error text, so the callers' test
    [if error] tells the two apart. *)
Theorem parse_signal_or_error now raw :
  exists s e,
    Parser.parse (Parser._build_lookup_tables cfg) now raw = Returned (s, e) /\
    ((exists signal, s = Some signal /\ e = None) \/
     (s = None /\ exists c msg, e = Some (c :: msg))).
Proof. exact (built_parse_shape now raw). Qed.

Lemma built_signal_facts now raw signal e :
  Parser.parse (Parser._build_lookup_tables cfg) now raw
    = Returned (Some signal, e) ->
  e = None /\
  In (Parser.direction signal) (dict_keys (cfg_directions cfg)) /\
  In (Parser.timeframe signal) (map snd (cfg_tf_aliases cfg)) /\
  (exists obj,
     dict_get (Parser.asset signal) (cfg_assets cfg) = Some obj /\
     asset_contains (Parser.timeframe signal) obj = true) /\
  Parser.original_message signal = raw /\
  Parser.timestamp signal = now /\
  (forall price, Parser.entry_price signal = Some price -> (0 <= price)%Q).
Proof.
  intros H.
  pose proof (parse_shape _ _ _ _ _ H) as Hshape.
  destruct (parse_signal_fields _ _ _ _ _ H)
    as (Hd & Ha & Htf & Hp & Ho & Ht & Hobj).
  split.
  { destruct Hshape as [(? & _ & ->)|[? _]]; [reflexivity | discriminate]. }
  split.
  { apply extract_direction_in_lookup in Hd. destruct Hd as [k Hk].
    exact (direction_lookup_values _ _ _ Hk). }
  split.
  { apply extract_timeframe_in_lookup in Htf. destruct Htf as [k Hk].
    exact (tf_lookup_values _ _ _ Hk). }
  split; [exact Hobj|]. split; [exact Ho|]. split; [exact Ht|].
  intros price Hprice. rewrite Hprice in Hp.
  exact (extract_price_nonneg _ _ Hp).
Qed.

(** X11. A signal [parse] returns on a parser built from a
    configuration is made of that configuration: its direction is a
    direction of the table, its asset an asset of the table, its
    timeframe a target of the timeframe aliases and a key of that
    asset's object; it carries the raw message and the clock reading,
    and its entry price, when there is one, is not negative. *)
Theorem parse_signal_from_config now raw signal e :
  Parser.parse (Parser._build_lookup_tables cfg) now raw
    = Returned (Some signal, e) ->
  e = None /\
  In (Parser.direction signal) (dict_keys (cfg_directions cfg)) /\
  In (Parser.timeframe signal) (map snd (cfg_tf_aliases cfg)) /\
  (exists obj,
     dict_get (Parser.asset signal) (cfg_assets cfg) = Some obj /\
     asset_contains (Parser.timeframe signal) obj = true) /\
  Parser.original_message signal = raw /\
  Parser.timestamp signal = now /\
  (forall price, Parser.entry_price signal = Some price -> (0 <= price)%Q).
Proof. exact (built_signal_facts now raw signal e). Qed.

End ParserGuarantees.

Lemma parse_signal_from_config_witness :
  In (py "BTCUSD") (dict_keys (cfg_assets demo_config)).
Proof.
  destruct (@parse_signal_from_config ascii_tables demo_config 3%Z
              (py "buy btc 5 @64,900")
              {| Parser.direction := py "LONG";
                 Parser.asset := py "BTCUSD";
                 Parser.timeframe := py "M5";
                 Parser.original_message := py "buy btc 5 @64,900";
                 Parser.timestamp := 3%Z;
                 Parser.entry_price := Some (inject_Z 64900 / inject_Z 1)%Q |}
              None eq_refl)
    as (_ & _ & _ & (obj & Hobj & _) & _).
  apply dict_get_In in Hobj. apply (in_map fst) in Hobj. exact Hobj.
Defined.

Section PriceMarker.
Context {U : UnicodeData}.

Lemma search_price_needs_marker prev message literal :
  search_from Parser.price_pattern prev message = Some literal ->
  In 64%N message.
Proof.
  revert prev; induction message as [|c s IH]; intros prev;
    cbn [search_from].
  - cbn. discriminate.
  - destruct (match_here Parser.price_pattern prev (c :: s))
      as [[g n]|] eqn:E.
    + intros _. unfold match_here in E.
      cbn [Parser.price_pattern pat_before re_match] in E.
      destruct (64 =? c)%N eqn:Ec; [|discriminate].
      apply N.eqb_eq in Ec. left. symmetry. exact Ec.
    + intros H. right. exact (IH _ H).
Qed.

(** X12. [_extract_price] never raises; it gives a price only for a
    message that contains an [@], and never a negative one. *)
Theorem extract_price_guarded message :
  exists price,
    Parser._extract_price message = Returned price /\
    (~ In 64%N message -> price = None) /\
    (forall q, price = Some q -> (0 <= q)%Q).
Proof.
  destruct (extract_price_returns message) as [price H].
  exists price. split; [exact H|]. split.
  - intros Hno. unfold Parser._extract_price in H.
    destruct (re_search Parser.price_pattern message) as [g|] eqn:E.
    + exfalso. apply Hno. exact (search_price_needs_marker _ _ _ E).
    + injection H as <-. reflexivity.
  - intros q ->. exact (extract_price_nonneg _ _ H).
Qed.

End PriceMarker.

Section AliasRoundTrip.
Context {U : UnicodeData}.

Lemma unique_write_is_last writes k v :
  reused_alias writes = false ->
  In (k, v) writes ->
  last_write k writes = Some v.
Proof.
  intros Hno Hin. unfold last_write.
  destruct (dict_get k (rev writes)) as [v'|] eqn:E.
  - f_equal. apply dict_get_In, in_rev in E.
    destruct (str_eqb v' v) eqn:Ev; [apply str_eqb_eq, Ev|].
    exfalso. unfold reused_alias in Hno.
    assert (Ht : existsb
                   (fun w1 =>
                      existsb
                        (fun w2 =>
                           str_eqb (fst w1) (fst w2)
                           && negb (str_eqb (snd w1) (snd w2))) writes)
                   writes = true).
    { apply existsb_exists. exists (k, v'). split; [exact E|].
      apply existsb_exists. exists (k, v). split; [exact Hin|].
      cbn. rewrite str_eqb_refl, Ev. reflexivity. }
    congruence.
  - exfalso. apply in_rev in Hin. apply (in_map fst) in Hin.
    apply dict_get_key in Hin. destruct Hin as [v' Hv']. cbn in Hv'.
    congruence.
Qed.

(** X13. In a configuration that gives no alias to two assets, every
    asset name and every alias the table declares resolves, upper-cased,
    to the asset that declares it. *)
Theorem declared_alias_resolves cfg name data :
  reused_alias (asset_writes cfg) = false ->
  In (name, data) (cfg_assets cfg) ->
  let lookup := Parser.asset_lookup (Parser._build_lookup_tables cfg) in
  dict_get (upper name) lookup = Some name /\
  (forall aliases alias,
     entry_aliases data = Some aliases -> In alias aliases ->
     dict_get (upper alias) lookup = Some name).
Proof.
  intros Hno Hin lookup.
  assert (Hget : forall k, In (k, name) (asset_writes cfg) ->
                           dict_get k lookup = Some name).
  { intros k Hk.

    unfold lookup. cbn [Parser._build_lookup_tables Parser.asset_lookup].
    rewrite build_asset_lookup_writes, dict_get_apply_writes.
    fold (last_write k (asset_writes cfg)).
    rewrite (unique_write_is_last _ _ _ Hno Hk). reflexivity. }
  split.
  - apply Hget. unfold asset_writes. apply in_flat_map.
    exists (name, data). split; [exact Hin|]. left. reflexivity.
  - intros aliases alias Hal Ha. apply Hget.
    unfold asset_writes. apply in_flat_map.
    exists (name, data). split; [exact Hin|]. right.
    rewrite Hal. apply in_map_iff. exists alias. auto.
Qed.

End AliasRoundTrip.

Lemma declared_alias_resolves_witness :
  dict_get (py "BITCOIN") (Parser.asset_lookup demo_parser) = Some (py "BTCUSD").
Proof.
  refine (proj2 (@declared_alias_resolves ascii_tables demo_config (py "BTCUSD")
                   (mkAsset (Some [py "BTC"; py "BITCOIN"])
                      [ (py "M5", mkRule 1%Q 2%Q 3.5%Q 1.5%Q (Some (py "%"))) ])
                   eq_refl _)
                 [py "BTC"; py "BITCOIN"] (py "BITCOIN") eq_refl _);
    cbn; auto.
Defined.

(** * The bot's pipeline *)

Lemma default_price_positive asset q :
  dict_get asset Bot.DEFAULT_PRICES = Some q -> (0 < q)%Q.
Proof.
  unfold Bot.DEFAULT_PRICES. cbn [dict_get].
  by_asset asset; intros [= <-]; reflexivity.
Qed.

(** X14. [get_price] returns a provided price that is not zero as it
    is, negative prices included; its result is zero exactly when the
    asset has no default price and the provided price is missing or
    zero. *)
Theorem get_price_zero asset provided :
  (forall p, provided = Some p -> ~ (p == 0)%Q ->
             Bot.get_price asset provided = p) /\
  ((Bot.get_price asset provided == 0)%Q <->
   dict_get asset Bot.DEFAULT_PRICES = None /\
   (provided = None \/ exists p, provided = Some p /\ (p == 0)%Q)).
Proof.
  assert (Hdef : (dict_get_default asset 0 Bot.DEFAULT_PRICES == 0)%Q <->
                 dict_get asset Bot.DEFAULT_PRICES = None).
  { unfold dict_get_default.
    destruct (dict_get asset Bot.DEFAULT_PRICES) as [q|] eqn:E.
    - apply default_price_positive in E. split; [|discriminate].
      intros H. rewrite H in E. exfalso. revert E. apply Qlt_irrefl.
    - split; reflexivity. }
  split.
  - intros p -> Hp. unfold Bot.get_price.
    destruct (Qeq_bool p 0) eqn:E; [|reflexivity].
    apply Qeq_bool_eq in E. contradiction.
  - unfold Bot.get_price. destruct provided as [p|].
    + destruct (Qeq_bool p 0) eqn:E.
      * apply Qeq_bool_eq in E. rewrite Hdef. split.
        -- intros H. split; [exact H|]. right. eauto.
        -- intros [H _]. exact H.
      * apply Qeq_bool_neq in E. split.
        -- intros H. contradiction.
        -- intros [_ [H|(p' & [= <-] & H)]]; [discriminate | contradiction].
    + rewrite Hdef. split.
      * intros H. split; [exact H|]. left. reflexivity.
      * intros [H _]. exact H.
Qed.

Section PipelineProperties.
Context {U : UnicodeData}.
Variable Formatted : Type.
Variable format : Calculator.TradingLevels -> outcome Formatted.

(** X15. A result [process_message] returns is a success or a failure
    and nothing in between: a success has no error, a signal and a
    formatted signal, and has counted one more signal sent and recorded
    the time; a failure has a non-empty error and no formatted signal
    and leaves the bot as it was.  The error counter, parser and
    calculator are never touched. *)
Theorem process_message_outcome self now_parsed now_sent message r self' :
  Bot.process_message Formatted format self now_parsed now_sent message
    = Returned (r, self') ->
  Bot.parser self' = Bot.parser self /\
  Bot.calculator self' = Bot.calculator self /\
  Bot.errors (Bot.stats self') = Bot.errors (Bot.stats self) /\
  ((Bot.success _ r = true /\ Bot.error _ r = None /\
    Bot.signal _ r <> None /\ Bot.formatted _ r <> None /\
    Bot.signals_sent (Bot.stats self')
      = (Bot.signals_sent (Bot.stats self) + 1)%Z /\
    Bot.last_signal (Bot.stats self') = Some now_sent) \/
   (Bot.success _ r = false /\
    (exists c msg, Bot.error _ r = Some (c :: msg)) /\
    Bot.formatted _ r = None /\ self' = self)).
Proof.
  unfold Bot.process_message.
  destruct (Parser.parse _ _ _) as [[s e]|] eqn:Hp; cbn [bind];
    [|discriminate].
  destruct e as [[|c msg]|].
  1, 3: destruct s as [signal|]; [|discriminate];
        destruct (Qeq_bool _ 0);
        [ intros [= <- <-]; repeat split; right; repeat split;
          eexists _, _; reflexivity
        | destruct (Calculator.calculate _ _ _ _ _); cbn [bind];
          [|discriminate];
          destruct (format _); cbn [bind]; [|discriminate];
          intros [= <- <-]; repeat split; left; repeat split; discriminate ].
  intros [= <- <-]. repeat split. right. repeat split.
  eexists _, _; reflexivity.
Qed.

(** X16. A bot set up from a configuration in which no timeframe alias
    points at the name ["aliases"], with a formatter that does not
    raise, answers every message: [process_message] never lets an
    exception of the parser or the calculator through. *)
Theorem process_message_never_raises cfg bot now_parsed now_sent message :
  Bot.init cfg = Returned bot ->
  ~ In k_aliases (map snd (cfg_tf_aliases cfg)) ->
  (forall levels, exists f, format levels = Returned f) ->
  exists r bot',
    Bot.process_message Formatted format bot now_parsed now_sent message
      = Returned (r, bot').
Proof.
  intros [= <-] Hno Hformat. unfold Bot.process_message. cbn [Bot.parser].
  destruct (built_parse_shape cfg now_parsed message)
    as (s & e & Hp & Hshape).
  rewrite Hp. cbn [bind].
  destruct Hshape as [(signal & -> & ->)|(-> & c & msg & ->)]; [|eauto].
  destruct (Qeq_bool _ 0); [eauto|].
  destruct (built_signal_facts cfg _ _ _ _ Hp)
    as (_ & _ & Htf & (obj & Hobj & Hc) & _).
  assert (Hr : exists rule,
            lookup_rule cfg (Parser.asset signal) (Parser.timeframe signal)
              = Some rule).
  { unfold lookup_rule. rewrite Hobj.
    unfold asset_contains, asset_get in *.
    destruct (str_eqb (Parser.timeframe signal) k_aliases) eqn:E.
    - apply str_eqb_eq in E. rewrite E in Htf. contradiction.
    - destruct (dict_get (Parser.timeframe signal) (entry_rules obj));
        [cbn; eauto | discriminate]. }
  destruct Hr as [rule Hr]. cbn [Bot.calculator].
  destruct (calculate_found cfg (Parser.direction signal) _ _
              (Bot.get_price (Parser.asset signal) (Parser.entry_price signal))
              rule Hr) as (lv & Hcalc & _).
  rewrite Hcalc. cbn [bind].
  destruct (Hformat lv) as [f Hf]. rewrite Hf. cbn [bind]. eauto.
Qed.

End PipelineProperties.

Section AliasesKey.
Context {U : UnicodeData}.

(** X17. The check of [parse] that the timeframe is configured for the
    asset accepts the key that holds the alias list: a signal whose
    timeframe is the name ["aliases"] passes it, and [calculate] on
    that signal raises [AttributeError] whatever the price. *)
Theorem aliases_timeframe_breaks_calculate cfg now raw signal e price :
  Parser.parse (Parser._build_lookup_tables cfg) now raw
    = Returned (Some signal, e) ->
  Parser.timeframe signal = k_aliases ->
  Calculator.calculate cfg (Parser.direction signal) (Parser.asset signal)
    (Parser.timeframe signal) price = Raised AttributeError.
Proof.
  intros Hp Htf.
  destruct (parse_signal_fields _ _ _ _ _ Hp)
    as (_ & _ & _ & _ & _ & _ & obj & Hobj & Hc).
  cbn [Parser.config Parser._build_lookup_tables] in Hobj.
  unfold Calculator.calculate, dict_getitem, asset_getitem.
  rewrite Hobj. cbn [bind]. rewrite Htf in *.
  unfold asset_contains, asset_get in *.
  rewrite str_eqb_refl in *.
  destruct (entry_aliases obj); [reflexivity | discriminate].
Qed.

End AliasesKey.

Lemma process_message_outcome_witness :
  exists r bot',
    @Bot.process_message ascii_tables _ (fun lv => Returned lv)
      (Bot.mkBot demo_parser demo_config (Bot.mkStats 4 0 None)) 1%Z 2%Z
      (py "sell dow h1") = Returned (r, bot') /\
    Bot.signals_sent (Bot.stats bot') = 5%Z.
Proof.
  eexists _, _. split; [reflexivity|].
  destruct (@process_message_outcome ascii_tables _ (fun lv => Returned lv)
              (Bot.mkBot demo_parser demo_config (Bot.mkStats 4 0 None))
              1%Z 2%Z (py "sell dow h1") _ _ eq_refl)
    as (_ & _ & _ & [(_ & _ & _ & _ & H & _)|(H & _)]).
  - exact H.
  - discriminate H.
Defined.

Lemma process_message_never_raises_witness :
  exists r bot',
    @Bot.process_message ascii_tables _ (fun lv => Returned lv)
      (Bot.mkBot demo_parser demo_config (Bot.mkStats 0 0 None)) 1%Z 2%Z
      (py "LONG BTCUSD M99") = Returned (r, bot').
Proof.
  apply (@process_message_never_raises ascii_tables _ (fun lv => Returned lv)
           demo_config).
  - reflexivity.
  - cbn. intros H. repeat (destruct H as [H|H]; [discriminate H|]). exact H.
  - intros lv. exists lv. reflexivity.
Defined.

Lemma aliases_timeframe_breaks_calculate_witness :
  exists signal,
    @Parser.parse ascii_tables
      (@Parser._build_lookup_tables ascii_tables alias_key_config) 0%Z
      (py "LONG BTCUSD ALL") = Returned (Some signal, None) /\
    Calculator.calculate alias_key_config (Parser.direction signal)
      (Parser.asset signal) (Parser.timeframe signal) 65000%Q
      = Raised AttributeError.
Proof.
  eexists. split; [reflexivity|].
  exact (@aliases_timeframe_breaks_calculate ascii_tables alias_key_config
           0%Z (py "LONG BTCUSD ALL") _ None 65000%Q eq_refl eq_refl).
Defined.

(** * Statistics of the signal log *)

Lemma filter_disjoint_lengths {X} (f g : X -> bool) l :
  (forall x, f x = true -> g x = false) ->
  (length (filter f l) + length (filter g l) <= length l)%nat.
Proof.
  intros Hfg. induction l as [|x l IH]; cbn [filter length]; [lia|].
  destruct (f x) eqn:Ef.
  - rewrite (Hfg x Ef). cbn [length]. lia.
  - destruct (g x); cbn [length]; lia.
Qed.

(** X18. When the log is read, [get_stats] reports counts that add up:
    wins, losses and pending make the total, and pending is never
    negative, a row counting as a win or as a loss but not both.  The
    win rate is ["N/A"] exactly for an empty log, so no division by
    zero occurs. *)
Theorem get_stats_counts records :
  exists report,
    Sheets.get_stats (Sheets.Records records) = inr report /\
    Sheets.total_signals report = length records /\
    (Z.of_nat (Sheets.wins report) + Z.of_nat (Sheets.losses report)
     + Sheets.pending report = Z.of_nat (Sheets.total_signals report))%Z /\
    (0 <= Sheets.pending report)%Z /\
    (Sheets.win_rate report = py "N/A" <-> records = []).
Proof.
  eexists. split; [reflexivity|]. cbn [Sheets.total_signals Sheets.wins
    Sheets.losses Sheets.pending Sheets.win_rate].
  split; [reflexivity|]. split; [lia|]. split.
  - pose proof (filter_disjoint_lengths
                  (Sheets.result_is (py "WIN")) (Sheets.result_is (py "LOSS"))
                  records) as H.
    assert (Hd : forall r, Sheets.result_is (py "WIN") r = true ->
                           Sheets.result_is (py "LOSS") r = false).
    { intros r. unfold Sheets.result_is.
      destruct (dict_get (py "Result") r) as [[s|q]|]; try discriminate.
      intros E. apply str_eqb_eq in E. subst s. reflexivity. }
    specialize (H Hd). lia.
  - destruct records as [|r records]; cbn [length Nat.ltb Nat.leb].
    + split; reflexivity.
    + split; [|discriminate].
      intros E. apply (f_equal (@rev char)) in E.
      rewrite rev_app_distr in E. discriminate E.
Qed.

(** * Letter case *)

Section LetterCase.
Context {U : UnicodeData}.

Lemma same_letter_ascii_letter c c' :
  same_letter c c' -> c = c' \/
  (is_ascii c = true /\ is_ascii c' = true /\
   is_space c = false /\ is_space c' = false /\
   upper_char c = upper_char c').
Proof.
  unfold same_letter, between, is_space, upper_char, is_ascii, between.
  intros [H|[[H ->]|[H ->]]]; [left; exact H | right | right];
    apply andb_true_iff in H; destruct H as [H1 H2];
    apply N.leb_le in H1, H2.
  - assert (E1 : (c <? 128)%N = true) by (apply N.ltb_lt; lia).
    assert (E2 : (c + 32 <? 128)%N = true) by (apply N.ltb_lt; lia).
    assert (E3 : (97 <=? c + 32)%N = true) by (apply N.leb_le; lia).
    assert (E4 : (c + 32 <=? 122)%N = true) by (apply N.leb_le; lia).
    assert (E5 : (97 <=? c)%N = false) by (apply N.leb_gt; lia).
    assert (E6 : (c <=? 13)%N = false) by (apply N.leb_gt; lia).
    assert (E7 : (c <=? 32)%N = false) by (apply N.leb_gt; lia).
    assert (E8 : (c + 32 <=? 13)%N = false) by (apply N.leb_gt; lia).
    assert (E9 : (c + 32 <=? 32)%N = false) by (apply N.leb_gt; lia).
    rewrite E1, E2, E3, E4, E5, E6, E7, E8, E9, !andb_false_r.
    cbn. repeat split. f_equal. lia.
  - assert (E1 : (c' <? 128)%N = true) by (apply N.ltb_lt; lia).
    assert (E2 : (c' + 32 <? 128)%N = true) by (apply N.ltb_lt; lia).
    assert (E3 : (97 <=? c' + 32)%N = true) by (apply N.leb_le; lia).
    assert (E4 : (c' + 32 <=? 122)%N = true) by (apply N.leb_le; lia).
    assert (E5 : (97 <=? c')%N = false) by (apply N.leb_gt; lia).
    assert (E6 : (c' <=? 13)%N = false) by (apply N.leb_gt; lia).
    assert (E7 : (c' <=? 32)%N = false) by (apply N.leb_gt; lia).
    assert (E8 : (c' + 32 <=? 13)%N = false) by (apply N.leb_gt; lia).
    assert (E9 : (c' + 32 <=? 32)%N = false) by (apply N.leb_gt; lia).
    rewrite E1, E2, E3, E4, E5, E6, E7, E8, E9, !andb_false_r.
    cbn. repeat split. f_equal. lia.
Qed.

Lemma same_letter_space c c' : same_letter c c' -> is_space c = is_space c'.
Proof.
  intros H. destruct (same_letter_ascii_letter _ _ H)
    as [->|(_ & _ & -> & -> & _)]; reflexivity.
Qed.

Lemma same_letter_upper c c' :
  same_letter c c' -> upper_char c = upper_char c'.
Proof.
  intros H. destruct (same_letter_ascii_letter _ _ H)
    as [->|(_ & _ & _ & _ & E)]; [reflexivity | exact E].
Qed.

Lemma drop_spaces_same s s' :
  Forall2 same_letter s s' ->
  Forall2 same_letter (drop_spaces s) (drop_spaces s').
Proof.
  induction 1 as [|c c' s s' Hc Hs IH]; cbn [drop_spaces]; [constructor|].
  rewrite <- (same_letter_space _ _ Hc).
  destruct (is_space c); [exact IH | constructor; assumption].
Qed.

Lemma rev_same s s' :
  Forall2 same_letter s s' -> Forall2 same_letter (rev s) (rev s').
Proof.
  induction 1 as [|c c' s s' Hc Hs IH]; cbn [rev]; [constructor|].
  apply Forall2_app; [exact IH | constructor; [exact Hc | constructor]].
Qed.

Lemma upper_same s s' : Forall2 same_letter s s' -> upper s = upper s'.
Proof.
  induction 1 as [|c c' s s' Hc Hs IH]; [reflexivity|].
  unfold upper in *. cbn [flat_map].
  rewrite IH, (same_letter_upper _ _ Hc). reflexivity.
Qed.

Lemma normalised_same raw raw' :
  Forall2 same_letter raw raw' -> upper (strip raw) = upper (strip raw').
Proof.
  intros H. apply upper_same. unfold strip.
  apply rev_same, drop_spaces_same, rev_same, drop_spaces_same, H.
Qed.

(** X19. [parse] does not look at the case of ASCII letters: two raw
    messages that differ only there get the same answer, error or
    signal, the signal keeping each its own raw message. *)
Theorem parse_ignores_letter_case self now raw raw' :
  Forall2 same_letter raw raw' ->
  Parser.parse self now raw' =
    match Parser.parse self now raw with
    | Returned (Some signal, e) => Returned (Some (with_original raw' signal), e)
    | other => other
    end.
Proof.
  intros H. apply normalised_same in H.
  unfold Parser.parse. rewrite <- H.
  destruct (Parser._extract_direction _ _) as [[|? ?]|]; try reflexivity.
  destruct (Parser._extract_asset _ _) as [[|? ?]|]; try reflexivity.
  destruct (Parser._extract_timeframe _ _) as [[|? ?]|]; try reflexivity.
  destruct (dict_getitem _ _); cbn [bind]; [|reflexivity].
  destruct (negb _); [reflexivity|].
  destruct (Parser._extract_price _); reflexivity.
Qed.

End LetterCase.

Lemma parse_ignores_letter_case_witness :
  exists signal,
    @Parser.parse ascii_tables demo_parser 0%Z (py "Long BtcUsd m5")
      = Returned (Some signal, None) /\
    Parser.asset signal = py "BTCUSD" /\
    Parser.original_message signal = py "Long BtcUsd m5".
Proof.
  eexists. split.
  - rewrite (@parse_ignores_letter_case ascii_tables demo_parser 0%Z
               (py "LONG BTCUSD M5") (py "Long BtcUsd m5")).
    + reflexivity.
    + repeat (apply Forall2_cons;
              [ solve [ left; reflexivity
                      | right; left; split; reflexivity
                      | right; right; split; reflexivity ] | ]).
      apply Forall2_nil.
  - split; reflexivity.
Defined.

(** * Surrounding whitespace *)

Section SurroundingSpace.
Context {U : UnicodeData}.

Lemma drop_spaces_app ws s :
  Forall (fun c => is_space c = true) ws ->
  drop_spaces (ws ++ s) = drop_spaces s.
Proof.
  induction 1 as [|c ws Hc _ IH]; cbn [app drop_spaces]; [reflexivity|].
  rewrite Hc. exact IH.
Qed.

Lemma drop_spaces_all ws :
  Forall (fun c => is_space c = true) ws -> drop_spaces ws = [].
Proof.
  intros H. rewrite <- (app_nil_r ws). rewrite (drop_spaces_app _ _ H).
  reflexivity.
Qed.

Lemma strip_trailing raw after :
  Forall (fun c => is_space c = true) after ->
  strip (raw ++ after) = strip raw.
Proof.
  intros Ha. unfold strip.
  induction raw as [|c raw IH]; cbn [app drop_spaces].
  - rewrite (drop_spaces_all _ Ha). reflexivity.
  - destruct (is_space c); [exact IH|].
    change (c :: raw ++ after) with ((c :: raw) ++ after).
    rewrite rev_app_distr, drop_spaces_app; [reflexivity|].
    apply Forall_rev. exact Ha.
Qed.

Lemma strip_surrounded before raw after :
  Forall (fun c => is_space c = true) before ->
  Forall (fun c => is_space c = true) after ->
  strip (before ++ raw ++ after) = strip raw.
Proof.
  intros Hb Ha. rewrite <- (strip_trailing raw after Ha).
  unfold strip. rewrite (drop_spaces_app _ _ Hb). reflexivity.
Qed.

(** X20. Whitespace around the raw message changes nothing but the
    record of the raw message: [parse] gives the padded message the
    answer it gives the bare one. *)
Theorem parse_ignores_surrounding_space self now before raw after :
  Forall (fun c => is_space c = true) before ->
  Forall (fun c => is_space c = true) after ->
  Parser.parse self now (before ++ raw ++ after) =
    match Parser.parse self now raw with
    | Returned (Some signal, e) =>
        Returned (Some (with_original (before ++ raw ++ after) signal), e)
    | other => other
    end.
Proof.
  intros Hb Ha. unfold Parser.parse.
  rewrite (strip_surrounded _ raw _ Hb Ha).
  destruct (Parser._extract_direction _ _) as [[|? ?]|]; try reflexivity.
  destruct (Parser._extract_asset _ _) as [[|? ?]|]; try reflexivity.
  destruct (Parser._extract_timeframe _ _) as [[|? ?]|]; try reflexivity.
  destruct (dict_getitem _ _); cbn [bind]; [|reflexivity].
  destruct (negb _); [reflexivity|].
  destruct (Parser._extract_price _); reflexivity.
Qed.

End SurroundingSpace.

Lemma parse_ignores_surrounding_space_witness :
  exists signal,
    @Parser.parse ascii_tables demo_parser 0%Z
      ([32; 9]%N ++ py "SHORT EUR 15" ++ [10]%N)
      = Returned (Some signal, None) /\
    Parser.asset signal = py "EURUSD".
Proof.
  pose proof (@parse_ignores_surrounding_space ascii_tables demo_parser 0%Z
                [32; 9]%N (py "SHORT EUR 15") [10]%N
                ltac:(repeat constructor) ltac:(repeat constructor)) as H.
  eexists. split.
  - etransitivity; [exact H | reflexivity].
  - reflexivity.
Defined.

(** * When [calculate] returns *)

(** X21. [calculate] returns exactly when the table holds a rule row
    for the asset and timeframe; direction and entry price play no
    part, so a zero or negative price and an unknown direction are
    accepted.  Otherwise it raises [KeyError] or [AttributeError],
    never a division or value error. *)
Theorem calculate_returns_iff_rule cfg d a tf p :
  ((exists lv, Calculator.calculate cfg d a tf p = Returned lv) <->
   (exists r, lookup_rule cfg a tf = Some r)) /\
  (forall e,
     Calculator.calculate cfg d a tf p = Raised e ->
     e = KeyError a \/ e = KeyError tf \/ e = AttributeError).
Proof.
  split; [split|].
  - intros [lv H]. unfold Calculator.calculate, dict_getitem, asset_getitem in H.
    unfold lookup_rule.
    destruct (dict_get a (cfg_assets cfg)) as [obj|]; [|discriminate].
    cbn [bind] in H.
    destruct (asset_get tf obj) as [[l|r]|]; try discriminate. eauto.
  - intros [r Hr]. destruct (calculate_found cfg d a tf p r Hr) as (lv & H & _).
    eauto.
  - intros e H.
    destruct (lookup_rule cfg a tf) as [r|] eqn:Hr.
    + destruct (calculate_found cfg d a tf p r Hr) as (lv & H' & _).
      congruence.
    + unfold Calculator.calculate, dict_getitem, asset_getitem in H.
      unfold lookup_rule in Hr.
      destruct (dict_get a (cfg_assets cfg)) as [obj|];
        [|injection H as <-; auto].
      cbn [bind] in H.
      destruct (asset_get tf obj) as [[l|r]|]; try discriminate;
        injection H as <-; auto.
Qed.
